(** * Authentication backend (src/main.py): signup, login and token issuance

    A shallow embedding of the request handlers of [main.py] and of the
    helpers they call, with the properties of the specification stated
    over it.

    Conventions of the model.
    - A Python [str] is a [string] whose characters are the code points
      U+0000..U+00FF; [lower] and [strip] follow [str.lower] and
      [str.strip] on that range.
    - A Python [dict] with string keys is a [gmap string value].
    - An aware UTC [datetime] and a [timedelta] are integers counting
      microseconds; the range check of [datetime] is not modelled.
    - A handler is a computation over a [World] (the database handle, the
      heap of dictionaries passed by reference, and the log of gateway
      calls) that returns a value or raises an exception.
    - The external primitives (bcrypt hashing and verification, JWT
      signing, the renderings of identifiers and datetimes) are the fields
      of the class [Primitives]; the password context that sits in front
      of bcrypt, which refuses or raises on what is no bcrypt hash, is
      modelled. *)

From stdpp Require Import base gmap list strings pretty.
From Stdlib Require Import ZArith Ascii String.

Local Open Scope string_scope.
Local Open Scope Z_scope.

(** ** Python strings *)

Module PyStr.

(** [str.isspace] on one character, code points below 256. *)
Definition isspace (c : ascii) : bool :=
  let n := Ascii.N_of_ascii c in
  ((9 <=? n) && (n <=? 13) || (28 <=? n) && (n <=? 32)
   || (n =? 133) || (n =? 160))%N.

(** [str.lower] on one character, code points below 256: A-Z and the
    Latin-1 capitals (U+00C0..U+00DE without the multiplication sign). *)
Definition lower_char (c : ascii) : ascii :=
  let n := Ascii.N_of_ascii c in
  if ((65 <=? n) && (n <=? 90)
      || (192 <=? n) && (n <=? 222) && negb (n =? 215))%N
  then Ascii.ascii_of_N (n + 32) else c.

Fixpoint lower (s : string) : string :=
  match s with
  | EmptyString => EmptyString
  | String c s' => String (lower_char c) (lower s')
  end.

Fixpoint lstrip (s : string) : string :=
  match s with
  | EmptyString => EmptyString
  | String c s' => if isspace c then lstrip s' else s
  end.

Fixpoint rstrip (s : string) : string :=
  match s with
  | EmptyString => EmptyString
  | String c s' =>
      match rstrip s' with
      | EmptyString => if isspace c then EmptyString else String c EmptyString
      | r => String c r
      end
  end.

(** [s.strip()] with no argument. *)
Definition strip (s : string) : string := rstrip (lstrip s).

(** [len(s)] *)
Definition len (s : string) : Z := Z.of_nat (String.length s).

End PyStr.

(** ** Values, dictionaries and exceptions *)

(** The Python objects the handlers put in dictionaries. An [ObjectId]
    is opaque: it is known by a number. *)
Inductive value : Type :=
  | VNone
  | VBool (b : bool)
  | VStr (s : string)
  | VOid (o : N)
  | VTime (t : Z).

#[global] Instance value_eq_dec : EqDecision value.
Proof. solve_decision. Defined.

Abbreviation dict := (gmap string value).

(** What a computation can raise: the [HTTPException] of the handlers, the
    [KeyError] of a subscript, the failure of the store gateway on an unset
    handle, the use of a reference that names no dictionary (which no
    handler does; it makes the heap operations total), and what the
    password context raises: [UnknownHashError] on a hash no scheme
    identifies, [ExpectedStringError] on a hash that is no string, and
    the [ValueError] of a scheme given a hash it cannot parse. *)
Inductive exception : Type :=
  | HTTPException (status_code : Z) (detail : string)
  | KeyError (key : string)
  | StoreUnavailable
  | DanglingReference
  | UnknownHashError
  | ExpectedStringError
  | ValueError (message : string).

#[global] Instance exception_eq_dec : EqDecision exception.
Proof. solve_decision. Defined.

Inductive outcome (A : Type) : Type :=
  | Return (a : A)
  | Raise (e : exception).
Arguments Return {A} a.
Arguments Raise {A} e.

(** The errors of the specification, as the handlers raise them. *)
Definition ServiceUnavailable : exception :=
  HTTPException 500 "Database not configured".
Definition DuplicateEmail : exception :=
  HTTPException 400 "Email already registered".
Definition InvalidCredentials : exception :=
  HTTPException 401 "Invalid email or password".

(** ** The world a handler runs in *)

(** The document store: its collections, each a sequence of documents in
    insertion order, and the next identifier it will generate. *)
Record Database : Type := mkDatabase {
  collections : gmap string (list dict);
  next_oid : N
}.

(** An operation performed on the store. *)
Inductive store_op : Type :=
  | OpFind (collection_name : string) (filter_dict : dict) (limit : nat)
  | OpInsert (collection_name : string) (data : dict).

Record World : Type := mkWorld {
  db : option Database;      (* the module-level handle [db]; [None] when unset *)
  heap : gmap positive dict; (* dictionaries handed over by reference *)
  store_log : list store_op; (* operations performed on the store, oldest first *)
  clock : Z;                 (* what [datetime.now(timezone.utc)] reads *)
  entropy : string           (* the salt the password hasher draws *)
}.

Definition M (A : Type) : Type := World → outcome A * World.

#[global] Instance M_ret : MRet M := λ A a w, (Return a, w).
#[global] Instance M_bind : MBind M := λ A B f m w,
  match m w with
  | (Return a, w') => f a w'
  | (Raise e, w') => (Raise e, w')
  end.

Definition raise {A} (e : exception) : M A := λ w, (Raise e, w).
(** A call that changes nothing in the world and may raise. *)
Definition lift {A} (o : outcome A) : M A := λ w, (o, w).
Definition get_db : M (option Database) := λ w, (Return (db w), w).
Definition put_db (d : Database) : M unit := λ w,
  (Return tt, mkWorld (Some d) (heap w) (store_log w) (clock w) (entropy w)).
Definition log_op (o : store_op) : M unit := λ w,
  (Return tt, mkWorld (db w) (heap w) (store_log w ++ [o])%list (clock w) (entropy w)).
Definition datetime_now : M Z := λ w, (Return (clock w), w).
Definition draw_salt : M string := λ w, (Return (entropy w), w).

(** *** Dictionaries held by reference *)

(** A dictionary display or [dict(...)]: a new object. *)
Definition new_dict (d : dict) : M positive := λ w,
  let l := fresh (dom (heap w)) in
  (Return l, mkWorld (db w) (<[l := d]> (heap w)) (store_log w) (clock w) (entropy w)).

Definition read_dict (l : positive) : M dict := λ w,
  match heap w !! l with
  | Some d => (Return d, w)
  | None => (Raise DanglingReference, w)
  end.

(** [d.copy()]: a new object with the entries of [d]. *)
Definition dict_copy (l : positive) : M positive :=
  d ← read_dict l; new_dict d.

(** [d.update(other)]: in place, the entries of [other] win. *)
Definition dict_update (l : positive) (other : dict) : M unit := λ w,
  match heap w !! l with
  | Some d =>
      (Return tt,
       mkWorld (db w) (<[l := other ∪ d]> (heap w)) (store_log w) (clock w) (entropy w))
  | None => (Raise DanglingReference, w)
  end.

(** [d[k]] *)
Definition subscript (d : dict) (k : string) : M value :=
  match d !! k with
  | Some v => mret v
  | None => raise (KeyError k)
  end.

(** [d.get(k, dflt)]; [d.get(k)] is [dict_get d k VNone]. *)
Definition dict_get (d : dict) (k : string) (dflt : value) : value :=
  default dflt (d !! k).

(** ** The store gateway (module [database]) *)

Definition collection (d : Database) (collection_name : string) : list dict :=
  default [] (collections d !! collection_name).

(** Modelled from the spec: [database.get_documents], which is not among
    the sources. Section 4.3: the lookup returns at most [limit] records
    matching the filter exactly, and fails when the store handle is unset,
    which is checked before the operation. *)
Definition get_documents (collection_name : string) (filter_dict : dict)
    (limit : nat) : M (list dict) :=
  h ← get_db;
  match h with
  | None => raise StoreUnavailable
  | Some d =>
      _ ← log_op (OpFind collection_name filter_dict limit);
      mret (take limit
              (filter (λ doc : dict, filter_dict ⊆ doc) (collection d collection_name)))
  end.

(** Modelled from the spec: [database.create_document], which is not among
    the sources. Section 4.3 and section 3: the insert creates a new record
    whose identifier the store generates, returns that identifier, and
    fails when the store handle is unset, which is checked before the
    operation. The record keeps its identifier under ["_id"], where [login]
    reads it. *)
Definition create_document (collection_name : string) (data : dict) : M value :=
  h ← get_db;
  match h with
  | None => raise StoreUnavailable
  | Some d =>
      let oid := VOid (next_oid d) in
      _ ← log_op (OpInsert collection_name data);
      _ ← put_db (mkDatabase
                    (<[collection_name :=
                         (collection d collection_name ++ [<["_id" := oid]> data])%list]>
                       (collections d))
                    (N.succ (next_oid d)));
      mret oid
  end.

(** ** Request and response models *)

Record SignupRequest : Type := mkSignupRequest {
  su_name : string;
  su_email : string;
  su_password : string
}.

Record LoginRequest : Type := mkLoginRequest {
  li_email : string;
  li_password : string
}.

Record AuthResponse : Type := mkAuthResponse {
  token : string;
  user : dict
}.

(** The external primitives the backend is built on. *)
Class Primitives : Type := {
  (** The process environment, [os.getenv]. *)
  getenv : string → option string;
  (** [EmailStr]: the validator of pydantic. *)
  EmailStr_valid : string → bool;
  (** [pwd_context.hash password], with the salt it draws made explicit as
      first argument, and the verification of the bcrypt scheme on a hash
      it identifies, which answers with a boolean or raises. *)
  bcrypt_hash : string → string → string;
  bcrypt_verify : string → string → outcome bool;
  (** [jwt.encode payload key algorithm] *)
  jwt_encode : dict → string → string → string;
  (** [str] of an [ObjectId] and of a [datetime]. *)
  str_of_oid : N → string;
  str_of_datetime : Z → string
}.

Section Backend.

Context {prim : Primitives}.

Definition SECRET_KEY : string :=
  default "dev-secret-change-me" (getenv "SECRET_KEY").
Definition ALGORITHM : string := "HS256".
Definition ACCESS_TOKEN_EXPIRE_MINUTES : Z := 60 * 24 * 7.

(** [timedelta(minutes=m)], in microseconds. *)
Definition timedelta_minutes (m : Z) : Z := m * 60 * 1000000.
(** [timedelta(days=d)], in microseconds. *)
Definition timedelta_days (d : Z) : Z := d * 86400 * 1000000.

(** The instants a [datetime] can hold, from year 1 to year 9999. The sum
    of a [datetime] and a [timedelta] is modelled by integer addition: the
    [OverflowError] Python raises when the sum leaves this range is not
    modelled, and what is stated of a sum is stated within the range. *)
Definition datetime_min : Z := -62135596800000000.
Definition datetime_max : Z := 253402300799999999.
Definition datetime_representable (t : Z) : Prop :=
  datetime_min ≤ t ≤ datetime_max.

(** [str(v)] *)
Definition py_str (v : value) : string :=
  match v with
  | VNone => "None"
  | VBool true => "True"
  | VBool false => "False"
  | VStr s => s
  | VOid o => str_of_oid o
  | VTime t => str_of_datetime t
  end.

(** The constraints of the request models. *)
Definition SignupRequest_valid (p : SignupRequest) : bool :=
  (2 <=? PyStr.len (su_name p)) && (PyStr.len (su_name p) <=? 80)
  && EmailStr_valid (su_email p)
  && (6 <=? PyStr.len (su_password p)) && (PyStr.len (su_password p) <=? 128).

Definition LoginRequest_valid (p : LoginRequest) : bool :=
  EmailStr_valid (li_email p)
  && (6 <=? PyStr.len (li_password p)) && (PyStr.len (li_password p) <=? 128).

(** *** Helpers *)

Definition hash_password (password : string) : M string :=
  salt ← draw_salt; mret (bcrypt_hash salt password).

(** The prefixes by which the bcrypt scheme identifies a hash. *)
Definition bcrypt_ident_values : list string :=
  [ "$2$"; "$2a$"; "$2x$"; "$2y$"; "$2b$" ].

Definition bcrypt_identify (password_hash : string) : bool :=
  existsb (λ ident, String.prefix ident password_hash) bcrypt_ident_values.

(** [pwd_context.verify(password, password_hash)], the context having the
    one scheme bcrypt: [None] is refused, a value that is no string and a
    string that bcrypt does not identify raise, and an identified hash
    goes to the scheme. *)
Definition verify_password (password : string) (password_hash : value)
    : outcome bool :=
  match password_hash with
  | VNone => Return false
  | VStr h =>
      if bcrypt_identify h then bcrypt_verify password h
      else Raise UnknownHashError
  | _ => Raise ExpectedStringError
  end.

(** [expires_delta or timedelta(minutes=ACCESS_TOKEN_EXPIRE_MINUTES)]:
    [None] and the zero [timedelta] are both false. *)
Definition expires_or_default (expires_delta : option Z) : Z :=
  match expires_delta with
  | Some delta => if delta =? 0 then timedelta_minutes ACCESS_TOKEN_EXPIRE_MINUTES
                  else delta
  | None => timedelta_minutes ACCESS_TOKEN_EXPIRE_MINUTES
  end.

Definition create_access_token (data : positive) (expires_delta : option Z)
    : M string :=
  to_encode ← dict_copy data;
  now ← datetime_now;
  let expire := now + expires_or_default expires_delta in
  _ ← dict_update to_encode {["exp" := VTime expire]};
  payload ← read_dict to_encode;
  let encoded_jwt := jwt_encode payload SECRET_KEY ALGORITHM in
  mret encoded_jwt.

(** *** Routes *)

Definition signup (payload : SignupRequest) : M AuthResponse :=
  h ← get_db;
  if h is None then raise (HTTPException 500 "Database not configured") else
  existing ← get_documents "user"
               {["email" := VStr (PyStr.lower (su_email payload))]} 1;
  if existing is _ :: _ then raise (HTTPException 400 "Email already registered") else
  password_hash ← hash_password (su_password payload);
  let user_doc : dict :=
    {[ "name" := VStr (PyStr.strip (su_name payload));
       "email" := VStr (PyStr.lower (su_email payload));
       "password_hash" := VStr password_hash;
       "is_active" := VBool true;
       "role" := VStr "user" ]} in
  user_id ← create_document "user" user_doc;
  email ← subscript user_doc "email";
  data ← new_dict {[ "sub" := VStr (py_str user_id); "email" := email ]};
  token ← create_access_token data None;
  name ← subscript user_doc "name";
  email ← subscript user_doc "email";
  is_active ← subscript user_doc "is_active";
  role ← subscript user_doc "role";
  let public_user : dict :=
    {[ "_id" := user_id;
       "name" := name;
       "email" := email;
       "is_active" := is_active;
       "role" := role ]} in
  mret (mkAuthResponse token public_user).

Definition login (payload : LoginRequest) : M AuthResponse :=
  h ← get_db;
  if h is None then raise (HTTPException 500 "Database not configured") else
  users ← get_documents "user"
            {["email" := VStr (PyStr.lower (li_email payload))]} 1;
  match users with
  | [] => raise (HTTPException 401 "Invalid email or password")
  | user :: _ =>
      verified ← lift (verify_password (li_password payload)
                         (dict_get user "password_hash" (VStr "")));
      if negb verified
      then raise (HTTPException 401 "Invalid email or password")
      else
        data ← new_dict {[ "sub" := VStr (py_str (dict_get user "_id" VNone));
                           "email" := dict_get user "email" VNone ]};
        token ← create_access_token data None;
        let public_user : dict :=
          {[ "_id" := VStr (py_str (dict_get user "_id" VNone));
             "name" := dict_get user "name" VNone;
             "email" := dict_get user "email" VNone;
             "is_active" := dict_get user "is_active" (VBool true);
             "role" := dict_get user "role" (VStr "user") ]} in
        mret (mkAuthResponse token public_user)
  end.

End Backend.

(** ** Vocabulary of the properties *)

Section Vocabulary.

Context {prim : Primitives}.

(** What the lookup of the handlers returns for normalized email [e]:
    [get_documents("user", {"email": e}, limit=1)]. *)
Definition find_users (d : Database) (e : string) : list dict :=
  take 1 (filter (λ doc : dict, {["email" := VStr e]} ⊆ doc) (collection d "user")).

(** Some record of the [user] collection carries email [e]. *)
Definition registered (d : Database) (e : string) : Prop :=
  ∃ doc : dict, doc ∈ collection d "user" ∧ doc !! "email" = Some (VStr e).

(** The record [signup] builds for a payload, given the salt drawn. *)
Definition user_doc_of (payload : SignupRequest) (salt : string) : dict :=
  {[ "name" := VStr (PyStr.strip (su_name payload));
     "email" := VStr (PyStr.lower (su_email payload));
     "password_hash" := VStr (bcrypt_hash salt (su_password payload));
     "is_active" := VBool true;
     "role" := VStr "user" ]}.

(** The heap after one more dictionary is created. *)
Definition alloc (h : gmap positive dict) (d : dict) : gmap positive dict :=
  <[fresh (dom h) := d]> h.

(** The mapping [create_access_token] signs for [data] at time [now]
    when no [expires_delta] is given. *)
Definition signed (data : dict) (now : Z) : dict :=
  <["exp" := VTime (now + timedelta_minutes ACCESS_TOKEN_EXPIRE_MINUTES)]> data.

(** A Python [str] object, as opposed to any other value. *)
Definition is_str (v : value) : bool :=
  if v is VStr _ then true else false.

(** The world once the lookup of a handler is logged. *)
Definition looked_up (e : string) (w : World) : World :=
  mkWorld (db w) (heap w)
    (store_log w ++ [OpFind "user" {["email" := VStr e]} 1])%list
    (clock w) (entropy w).

(** No whitespace at either end. *)
Definition trimmed (s : string) : Prop := PyStr.strip s = s.

End Vocabulary.

(** ** The diagnostic route *)

(** What the response of [/test] holds: [None], a [str], or the list of
    collection names. Literals of the source with characters beyond U+00FF
    are kept as their UTF-8 bytes. *)
Inductive diag_value : Type :=
  | DNone
  | DStr (s : string)
  | DNames (names : list string).

(** The database driver as [/test] uses it: [db.name] when [hasattr(db,
    'name')], and [db.list_collection_names()], which returns the names or
    raises an exception ([inl], with the [str] of the exception). *)
Class Driver : Type := {
  database_name : Database → option string;
  list_collection_names : Database → string + list string
}.

(** The truth value of [os.getenv(k)]: [None] and the empty string are
    false. *)
Definition env_set (o : option string) : bool :=
  match o with
  | Some (String _ _) => true
  | _ => false
  end.

Section Diagnostics.

Context {prim : Primitives} {driver : Driver}.

Definition test_database : M (gmap string diag_value) :=
  h ← get_db;
  let response : gmap string diag_value :=
    {[ "backend" := DStr "✅ Running";
       "database" := DStr "❌ Not Available";
       "database_url" := DNone;
       "database_name" := DNone;
       "connection_status" := DStr "Not Connected";
       "collections" := DNames [] ]} in
  let response :=
    match h with
    | Some d =>
        let response := <["database" := DStr "✅ Available"]> response in
        let response := <["database_url" := DStr "✅ Configured"]> response in
        let response :=
          <["database_name" := DStr (default "✅ Connected" (database_name d))]>
            response in
        let response := <["connection_status" := DStr "Connected"]> response in
        match list_collection_names d with
        | inr collections =>
            let response :=
              <["collections" := DNames (take 10 collections)]> response in
            <["database" := DStr "✅ Connected & Working"]> response
        | inl e =>
            <["database" :=
                DStr ("⚠️  Connected but Error: " ++ String.substring 0 50 e)]>
              response
        end
    | None => <["database" := DStr "⚠️  Available but not initialized"]> response
    end in
  let response :=
    <["database_url" :=
        DStr (if env_set (getenv "DATABASE_URL") then "✅ Set" else "❌ Not Set")]>
      response in
  let response :=
    <["database_name" :=
        DStr (if env_set (getenv "DATABASE_NAME") then "✅ Set" else "❌ Not Set")]>
      response in
  mret response.

End Diagnostics.

(** ** Requests served one after the other *)

Inductive request : Type :=
  | SignupReq (payload : SignupRequest)
  | LoginReq (payload : LoginRequest).

Section Serving.

Context {prim : Primitives}.

(** One request, handled when the clock reads [now] and the hasher draws
    [salt]; the response goes to the client, the world stays. *)
Definition serve (w : World) (req : request * Z * string) : World :=
  let w0 := mkWorld (db w) (heap w) (store_log w) req.1.2 req.2 in
  match req.1.1 with
  | SignupReq payload => snd (signup payload w0)
  | LoginReq payload => snd (login payload w0)
  end.

Definition serve_all (w : World) (reqs : list (request * Z * string)) : World :=
  foldl serve w reqs.

(** The records of the [user] collection of a world; none when the store
    is unset. *)
Definition users (w : World) : list dict :=
  from_option (λ d, collection d "user") [] (db w).

(** At most one record carries any given email. *)
Definition emails_unique (docs : list dict) : Prop :=
  ∀ e,
    (List.length (filter (λ doc : dict, doc !! "email" = Some (VStr e)) docs) ≤ 1)%nat.

(** A record as [signup] makes them. *)
Definition signup_shaped (doc : dict) : Prop :=
  ∃ name email password_hash,
    doc !! "name" = Some (VStr name) ∧ trimmed name
    ∧ doc !! "email" = Some (VStr email) ∧ PyStr.lower email = email
    ∧ doc !! "password_hash" = Some (VStr password_hash)
    ∧ doc !! "is_active" = Some (VBool true)
    ∧ doc !! "role" = Some (VStr "user")
    ∧ is_Some (doc !! "_id").

End Serving.

(** ** A concrete instance, on which the theorems are exercised *)

Module Demo.

Definition demo_hash (salt password : string) : string :=
  "$2b$" ++ salt ++ "$" ++ password.

(** The part of a string before its first [$]. *)
Fixpoint salt_of (h : string) : string :=
  match h with
  | EmptyString => EmptyString
  | String c h' => if Ascii.eqb c "$" then EmptyString else String c (salt_of h')
  end.

(** Accepts a hash when it is the hash of the password under the salt the
    hash carries after its four-character prefix. *)
Definition demo_verify (password password_hash : string) : outcome bool :=
  Return
    (bool_decide
       (password_hash
        = demo_hash
            (salt_of (String.substring 4 (String.length password_hash) password_hash))
            password)).

Definition demo_encode (payload : dict) (key algorithm : string) : string :=
  algorithm ++ "." ++ key ++ "."
    ++ (if payload !! "sub" is Some (VStr s) then s else "").

Definition demo : Primitives := {|
  getenv := λ _, None;
  EmailStr_valid := λ s, bool_decide (is_Some (String.index 0 "@" s));
  bcrypt_hash := demo_hash;
  bcrypt_verify := demo_verify;
  jwt_encode := demo_encode;
  str_of_oid := pretty;
  str_of_datetime := pretty
|}.

(** An empty store whose next identifier is 7, at time 1000. *)
Definition empty_world : World :=
  mkWorld (Some (mkDatabase ∅ 7)) ∅ [] 1000 "salt".

Definition ann : SignupRequest := mkSignupRequest "Ann" "Ann@X.com" "secret1".
Definition ann_login : LoginRequest := mkLoginRequest "ANN@x.com" "secret1".

(** A name the request model accepts and that is blank. *)
Definition blank : SignupRequest := mkSignupRequest "  " "bob@x.com" "secret1".

(** Ann signs up on the empty store. *)
Definition ann_run : outcome AuthResponse * World :=
  signup (prim := demo) ann empty_world.
Definition ann_response : AuthResponse :=
  match fst ann_run with
  | Return r => r
  | Raise _ => mkAuthResponse "" ∅
  end.
Definition ann_world : World := snd ann_run.
Definition ann_db : Database := default (mkDatabase ∅ 0) (db ann_world).
Definition ann_record : dict := default ∅ (head (collection ann_db "user")).

(** Ann logs in on the store her signup left, one second later. *)
Definition ann_later : World :=
  mkWorld (db ann_world) (heap ann_world) (store_log ann_world) 1001000 "pepper".
Definition ann_login_run : outcome AuthResponse * World :=
  login (prim := demo) ann_login ann_later.
Definition ann_login_response : AuthResponse :=
  match fst ann_login_run with
  | Return r => r
  | Raise _ => mkAuthResponse "" ∅
  end.

(** A store whose one record has no ["password_hash"] field. *)
Definition legacy_record : dict :=
  {[ "_id" := VOid 3; "name" := VStr "Old"; "email" := VStr "old@x.com" ]}.
Definition legacy_db : Database :=
  mkDatabase {[ "user" := [legacy_record] ]} 4.
Definition legacy_world : World :=
  mkWorld (Some legacy_db) ∅ [] 1000 "salt".

(** Ann again, in capitals, and a login of hers with a wrong password. *)
Definition ann_again : SignupRequest :=
  mkSignupRequest "Ann B" "ANN@X.COM" "secret2".
Definition ann_wrong : LoginRequest := mkLoginRequest "ann@x.com" "secret2".
Definition zed_login : LoginRequest := mkLoginRequest "zed@x.com" "secret1".
Definition old_login : LoginRequest := mkLoginRequest "Old@X.com" "secret1".

(** A heap with one dictionary of claims. *)
Definition claims_world : World :=
  mkWorld None {[ 1%positive := {[ "sub" := VStr "7" ]} ]} [] 1000 "salt".


(** A store whose one record is marked inactive. *)
Definition ian_record : dict :=
  {[ "_id" := VOid 5; "name" := VStr "Ian"; "email" := VStr "ian@x.com";
     "password_hash" := VStr "$2b$salt$secret1"; "is_active" := VBool false ]}.
Definition ian_db : Database := mkDatabase {[ "user" := [ian_record] ]} 6.
Definition ian_world : World := mkWorld (Some ian_db) ∅ [] 1000 "salt".
Definition ian_login : LoginRequest := mkLoginRequest "Ian@X.com" "secret1".

(** Four requests in a row: Ann signs up, signs up again in capitals,
    logs in, and a blank name signs up. *)
Definition traffic : list (request * Z * string) :=
  [ (SignupReq ann, 1000, "salt");
    (SignupReq ann_again, 2000, "pepper");
    (LoginReq ann_login, 3000, "");
    (SignupReq blank, 4000, "sugar") ].

(** A driver that lists the collections in key order, and fails on a
    database that has generated no identifier yet. *)
Definition demo_driver : Driver := {|
  database_name := λ _, Some "auth";
  list_collection_names := λ d,
    if (next_oid d =? 0)%N
    then inl "ServerSelectionTimeoutError: localhost:27017: connection refused"
    else inr (map_to_list (collections d)).*1
|}.

(** A database of twelve collections, and one that cannot be listed. *)
Definition crowded_db : Database :=
  mkDatabase
    (list_to_map
       ((λ c : string, (c, @nil dict))
          <$> [ "a"; "b"; "c"; "d"; "e"; "f"; "g"; "h"; "i"; "j"; "k"; "l" ]))
    1.
Definition crowded_world : World := mkWorld (Some crowded_db) ∅ [] 1000 "salt".
Definition broken_db : Database := mkDatabase ∅ 0.
Definition broken_world : World := mkWorld (Some broken_db) ∅ [] 1000 "salt".
Definition unset_world : World := mkWorld None ∅ [] 1000 "salt".

End Demo.

(** ** Facts about strings *)

Section Strings.

Import PyStr.

Example lower_ann : lower "Ann@X.com" = "ann@x.com".
Proof. reflexivity. Qed.

Example strip_inner : strip "  a b  " = "a b".
Proof. reflexivity. Qed.

Example strip_blank : strip "  " = "".
Proof. reflexivity. Qed.

Lemma lower_char_idem c : lower_char (lower_char c) = lower_char c.
Proof. by destruct c as [[] [] [] [] [] [] [] []]. Qed.

Lemma lower_idem s : lower (lower s) = lower s.
Proof. induction s as [|c s IH]; cbn; [done|]. by rewrite lower_char_idem, IH. Qed.

Lemma lstrip_length s : (String.length (lstrip s) ≤ String.length s)%nat.
Proof. induction s as [|c s IH]; cbn; [done|]. destruct (isspace c); cbn; lia. Qed.

Lemma rstrip_length s : (String.length (rstrip s) ≤ String.length s)%nat.
Proof.
  induction s as [|c s IH]; cbn; [done|].
  destruct (rstrip s); [destruct (isspace c)|]; cbn in *; lia.
Qed.

Lemma strip_len s : len (strip s) ≤ len s.
Proof.
  unfold len, strip. pose proof (rstrip_length (lstrip s)).
  pose proof (lstrip_length s). lia.
Qed.

Lemma rstrip_cons c s :
  rstrip (String c s) =
    match rstrip s with
    | EmptyString => if isspace c then EmptyString else String c EmptyString
    | r => String c r
    end.
Proof. reflexivity. Qed.

Lemma rstrip_idem s : rstrip (rstrip s) = rstrip s.
Proof.
  induction s as [|c s IH]; [done|].
  rewrite rstrip_cons. destruct (rstrip s) as [|c' r] eqn:E.
  - destruct (isspace c) eqn:Ec; [done|]. cbn. by rewrite Ec.
  - by rewrite rstrip_cons, IH.
Qed.

Lemma lstrip_head s :
  lstrip s = EmptyString ∨ ∃ c t, lstrip s = String c t ∧ isspace c = false.
Proof.
  induction s as [|c s IH]; cbn; [by left|].
  destruct (isspace c) eqn:Ec; [done|]. right. by exists c, s.
Qed.

Lemma strip_idem s : strip (strip s) = strip s.
Proof.
  unfold strip. destruct (lstrip_head s) as [->|(c & t & -> & Ec)]; [done|].
  assert (lstrip (rstrip (String c t)) = rstrip (String c t)) as ->.
  { rewrite rstrip_cons. destruct (rstrip t); cbn; rewrite ?Ec; cbn; by rewrite ?Ec. }
  apply rstrip_idem.
Qed.

End Strings.

(** ** Facts about the lookup *)

Section Lookup.

Lemma find_users_nil d e : find_users d e = [] ↔ ¬ registered d e.
Proof.
  unfold find_users, registered. split.
  - intros Hnil (doc & Hin & He).
    assert (doc ∈ filter (λ doc : dict, {["email" := VStr e]} ⊆ doc)
                    (collection d "user")) as Hf.
    { apply list_elem_of_filter. split; [|done].
      by apply map_singleton_subseteq_l. }
    destruct (filter _ _) as [|x l]; [by apply elem_of_nil in Hf|done].
  - intros Hno.
    destruct (filter _ _) as [|x l] eqn:E; [done|]. exfalso. apply Hno.
    assert (x ∈ filter (λ doc : dict, {["email" := VStr e]} ⊆ doc)
                  (collection d "user")) as Hf by (rewrite E; left).
    apply list_elem_of_filter in Hf as [Hx Hin].
    exists x. split; [done|]. by apply map_singleton_subseteq_l.
Qed.

Lemma find_users_cons d e u us :
  find_users d e = u :: us →
  us = [] ∧ u ∈ collection d "user" ∧ u !! "email" = Some (VStr e).
Proof.
  unfold find_users. intros Hf.
  destruct (filter _ _) as [|x l] eqn:E; [done|].
  cbn in Hf. rewrite take_0 in Hf. injection Hf as <- <-. split; [done|].
  assert (x ∈ filter (λ doc : dict, {["email" := VStr e]} ⊆ doc)
                (collection d "user")) as Hx by (rewrite E; left).
  apply list_elem_of_filter in Hx as [Hx Hin].
  split; [done|]. by apply map_singleton_subseteq_l.
Qed.

Lemma found_registered d e u us : find_users d e = u :: us → registered d e.
Proof. intros Hf. apply find_users_cons in Hf as (_ & Hin & He). by exists u. Qed.

Lemma find_users_registered d e : registered d e → ∃ u, find_users d e = [u].
Proof.
  intros Hr. destruct (find_users d e) as [|u us] eqn:E.
  - by apply find_users_nil in E.
  - apply find_users_cons in E as (-> & _). by exists u.
Qed.

(** The lookup after a record carrying [e] was appended to a collection
    that had none. *)
Lemma find_users_appended d e (doc : dict) n :
  find_users d e = [] →
  doc !! "email" = Some (VStr e) →
  find_users
    (mkDatabase (<["user" := (collection d "user" ++ [doc])%list]> (collections d)) n)
    e = [doc].
Proof.
  unfold find_users. intros Hnil He.
  unfold collection at 1. cbn [collections]. rewrite lookup_insert_eq. unfold default, from_option, id.
  rewrite filter_app.
  destruct (filter _ (collection d "user")) as [|x l]; [|done].
  rewrite filter_cons_True by (by apply map_singleton_subseteq_l). done.
Qed.

End Lookup.

(** ** Running the helpers and the handlers *)

Section Runs.

Context {prim : Primitives}.

Lemma run_bind {A B} (m : M A) (f : A → M B) w a w' :
  m w = (Return a, w') → (m ≫= f) w = f a w'.
Proof. intros E. unfold mbind, M_bind. by rewrite E. Qed.

Lemma get_documents_run c f n w d :
  db w = Some d →
  get_documents c f n w =
    (Return (take n (filter (λ doc : dict, f ⊆ doc) (collection d c))),
     mkWorld (db w) (heap w) (store_log w ++ [OpFind c f n])%list
       (clock w) (entropy w)).
Proof. intros E. destruct w as [? hp lg ck en]. simpl in E. by subst. Qed.

Lemma create_document_run c data w d :
  db w = Some d →
  create_document c data w =
    (Return (VOid (next_oid d)),
     mkWorld
       (Some (mkDatabase
                (<[c := (collection d c ++ [<["_id" := VOid (next_oid d)]> data])%list]>
                   (collections d))
                (N.succ (next_oid d))))
       (heap w) (store_log w ++ [OpInsert c data])%list (clock w) (entropy w)).
Proof. intros E. destruct w as [? hp lg ck en]. simpl in E. by subst. Qed.

Lemma create_access_token_run data expires_delta w m :
  heap w !! data = Some m →
  create_access_token data expires_delta w =
    (Return (jwt_encode
               (<["exp" := VTime (clock w + expires_or_default expires_delta)]> m)
               SECRET_KEY ALGORITHM),
     mkWorld (db w)
       (alloc (heap w)
          (<["exp" := VTime (clock w + expires_or_default expires_delta)]> m))
       (store_log w) (clock w) (entropy w)).
Proof.
  intros Hm. unfold create_access_token, dict_copy, alloc.
  unfold mbind, M_bind, read_dict, new_dict, datetime_now, dict_update, mret, M_ret.
  rewrite Hm. cbn [heap db store_log clock entropy].
  rewrite lookup_insert_eq. cbn [heap db store_log clock entropy].
  rewrite insert_insert_eq, lookup_insert_eq, <- insert_union_singleton_l.
  reflexivity.
Qed.

Lemma create_access_token_dangling data expires_delta w :
  heap w !! data = None →
  create_access_token data expires_delta w = (Raise DanglingReference, w).
Proof.
  intros Hm. unfold create_access_token, dict_copy.
  unfold mbind, M_bind, read_dict. by rewrite Hm.
Qed.

Lemma signup_unavailable payload w :
  db w = None → signup payload w = (Raise ServiceUnavailable, w).
Proof.
  intros Hdb. unfold signup.
  erewrite run_bind; [|reflexivity]. by rewrite Hdb.
Qed.

Lemma signup_duplicate payload w d u us :
  db w = Some d →
  find_users d (PyStr.lower (su_email payload)) = u :: us →
  signup payload w =
    (Raise DuplicateEmail, looked_up (PyStr.lower (su_email payload)) w).
Proof.
  intros Hdb Hfind. unfold signup.
  erewrite run_bind; [|reflexivity]. rewrite Hdb.
  erewrite run_bind; [|by apply get_documents_run].
  fold (find_users d (PyStr.lower (su_email payload))). by rewrite Hfind.
Qed.

Lemma signup_fresh payload w d :
  db w = Some d →
  find_users d (PyStr.lower (su_email payload)) = [] →
  let user_doc := user_doc_of payload (entropy w) in
  let user_id := VOid (next_oid d) in
  let claims : dict :=
    {[ "sub" := VStr (py_str user_id);
       "email" := VStr (PyStr.lower (su_email payload)) ]} in
  signup payload w =
    (Return (mkAuthResponse
               (jwt_encode (signed claims (clock w)) SECRET_KEY ALGORITHM)
               {[ "_id" := user_id;
                  "name" := VStr (PyStr.strip (su_name payload));
                  "email" := VStr (PyStr.lower (su_email payload));
                  "is_active" := VBool true;
                  "role" := VStr "user" ]}),
     mkWorld
       (Some (mkDatabase
                (<["user" :=
                     (collection d "user" ++ [<["_id" := user_id]> user_doc])%list]>
                   (collections d))
                (N.succ (next_oid d))))
       (alloc (alloc (heap w) claims) (signed claims (clock w)))
       (store_log w
          ++ [OpFind "user" {["email" := VStr (PyStr.lower (su_email payload))]} 1;
              OpInsert "user" user_doc])%list
       (clock w) (entropy w)).
Proof.
  intros Hdb Hfind user_doc user_id claims. unfold signup.
  erewrite run_bind; [|reflexivity]. rewrite Hdb.
  erewrite run_bind; [|by apply get_documents_run].
  fold (find_users d (PyStr.lower (su_email payload))). rewrite Hfind.
  erewrite run_bind; [|reflexivity].
  erewrite run_bind; [|by apply create_document_run].
  do 2 (erewrite run_bind; [|reflexivity]).
  erewrite run_bind;
    [|apply create_access_token_run; cbn [heap]; apply lookup_insert_eq].
  do 4 (erewrite run_bind; [|reflexivity]).
  cbn [db heap store_log clock entropy]. rewrite <- (assoc_L (++)).
  reflexivity.
Qed.

Lemma login_unavailable payload w :
  db w = None → login payload w = (Raise ServiceUnavailable, w).
Proof.
  intros Hdb. unfold login.
  erewrite run_bind; [|reflexivity]. by rewrite Hdb.
Qed.

Lemma login_unknown payload w d :
  db w = Some d →
  find_users d (PyStr.lower (li_email payload)) = [] →
  login payload w =
    (Raise InvalidCredentials, looked_up (PyStr.lower (li_email payload)) w).
Proof.
  intros Hdb Hfind. unfold login.
  erewrite run_bind; [|reflexivity]. rewrite Hdb.
  erewrite run_bind; [|by apply get_documents_run].
  fold (find_users d (PyStr.lower (li_email payload))). by rewrite Hfind.
Qed.

Lemma login_verifier_raises payload w d u us e :
  db w = Some d →
  find_users d (PyStr.lower (li_email payload)) = u :: us →
  verify_password (li_password payload) (dict_get u "password_hash" (VStr ""))
    = Raise e →
  login payload w = (Raise e, looked_up (PyStr.lower (li_email payload)) w).
Proof.
  intros Hdb Hfind Hv. unfold login.
  erewrite run_bind; [|reflexivity]. rewrite Hdb.
  erewrite run_bind; [|by apply get_documents_run].
  fold (find_users d (PyStr.lower (li_email payload))). rewrite Hfind.
  by rewrite Hv.
Qed.

Lemma login_rejected payload w d u us :
  db w = Some d →
  find_users d (PyStr.lower (li_email payload)) = u :: us →
  verify_password (li_password payload) (dict_get u "password_hash" (VStr ""))
    = Return false →
  login payload w =
    (Raise InvalidCredentials, looked_up (PyStr.lower (li_email payload)) w).
Proof.
  intros Hdb Hfind Hv. unfold login.
  erewrite run_bind; [|reflexivity]. rewrite Hdb.
  erewrite run_bind; [|by apply get_documents_run].
  fold (find_users d (PyStr.lower (li_email payload))). rewrite Hfind.
  by rewrite Hv.
Qed.

Lemma login_accepted payload w d u us :
  db w = Some d →
  find_users d (PyStr.lower (li_email payload)) = u :: us →
  verify_password (li_password payload) (dict_get u "password_hash" (VStr ""))
    = Return true →
  let claims : dict :=
    {[ "sub" := VStr (py_str (dict_get u "_id" VNone));
       "email" := dict_get u "email" VNone ]} in
  login payload w =
    (Return (mkAuthResponse
               (jwt_encode (signed claims (clock w)) SECRET_KEY ALGORITHM)
               {[ "_id" := VStr (py_str (dict_get u "_id" VNone));
                  "name" := dict_get u "name" VNone;
                  "email" := dict_get u "email" VNone;
                  "is_active" := dict_get u "is_active" (VBool true);
                  "role" := dict_get u "role" (VStr "user") ]}),
     mkWorld (db w)
       (alloc (alloc (heap w) claims) (signed claims (clock w)))
       (store_log w
          ++ [OpFind "user" {["email" := VStr (PyStr.lower (li_email payload))]} 1])%list
       (clock w) (entropy w)).
Proof.
  intros Hdb Hfind Hv claims. unfold login.
  erewrite run_bind; [|reflexivity]. rewrite Hdb.
  erewrite run_bind; [|by apply get_documents_run].
  fold (find_users d (PyStr.lower (li_email payload))). rewrite Hfind, Hv.
  erewrite run_bind; [|reflexivity]. cbn [negb].
  erewrite run_bind; [|reflexivity].
  erewrite run_bind;
    [|apply create_access_token_run; cbn [heap]; apply lookup_insert_eq].
  cbn [db heap store_log clock entropy]. by rewrite Hdb.
Qed.

End Runs.

(** ** When a handler returns *)

Section Returns.

Context {prim : Primitives}.

Lemma signup_returns payload w r w' :
  signup payload w = (Return r, w') →
  ∃ d, db w = Some d ∧ find_users d (PyStr.lower (su_email payload)) = [].
Proof.
  intros Hrun. destruct (db w) as [d|] eqn:Hdb.
  - exists d. split; [done|].
    destruct (find_users d (PyStr.lower (su_email payload))) as [|u us] eqn:Hf;
      [done|].
    by rewrite (signup_duplicate _ _ _ _ _ Hdb Hf) in Hrun.
  - by rewrite (signup_unavailable _ _ Hdb) in Hrun.
Qed.

Lemma login_returns payload w r w' :
  login payload w = (Return r, w') →
  ∃ d u, db w = Some d
    ∧ find_users d (PyStr.lower (li_email payload)) = [u]
    ∧ verify_password (li_password payload)
        (dict_get u "password_hash" (VStr "")) = Return true.
Proof.
  intros Hrun. destruct (db w) as [d|] eqn:Hdb.
  - destruct (find_users d (PyStr.lower (li_email payload))) as [|u us] eqn:Hf.
    + by rewrite (login_unknown _ _ _ Hdb Hf) in Hrun.
    + destruct (find_users_cons _ _ _ _ Hf) as (-> & _).
      destruct (verify_password (li_password payload)
                  (dict_get u "password_hash" (VStr ""))) as [[|]|e] eqn:Hv.
      * by exists d, u.
      * by rewrite (login_rejected _ _ _ _ _ Hdb Hf Hv) in Hrun.
      * by rewrite (login_verifier_raises _ _ _ _ _ _ Hdb Hf Hv) in Hrun.
  - by rewrite (login_unavailable _ _ Hdb) in Hrun.
Qed.

Lemma default_expiry :
  timedelta_minutes ACCESS_TOKEN_EXPIRE_MINUTES = timedelta_days 7.
Proof. reflexivity. Qed.

Lemma fresh_not_allocated (h : gmap positive dict) : h !! fresh (dom h) = None.
Proof. apply not_elem_of_dom, is_fresh. Qed.

End Returns.

(** ** The properties of the specification *)

Section Claims.

Context {prim : Primitives}.

(** C1. For every valid signup payload whose lowercased email no record of
    the store carries, the store being available, [signup] returns a
    response that holds a token, signed with [SECRET_KEY], and a public
    user whose ["email"] is the lowercased input email and which has no
    ["password_hash"] field. *)
Theorem signup_fresh_response payload w d :
  SignupRequest_valid payload = true →
  db w = Some d →
  ¬ registered d (PyStr.lower (su_email payload)) →
  ∃ r, fst (signup payload w) = Return r
    ∧ (∃ claims, token r = jwt_encode claims SECRET_KEY ALGORITHM)
    ∧ user r !! "email" = Some (VStr (PyStr.lower (su_email payload)))
    ∧ user r !! "password_hash" = None.
Proof.
  intros _ Hdb Hfresh. apply find_users_nil in Hfresh.
  rewrite (signup_fresh _ _ _ Hdb Hfresh). eexists. split; [reflexivity|].
  cbn [token user]. split; [by eexists|]. split; reflexivity.
Qed.

(** C2. If a record of the store carries the lowercase form of an email,
    [signup] with any casing of that email raises [DuplicateEmail], status
    400; the store is left as it was and the only operation performed on it
    is the lookup. In particular a second [signup] with the same email up
    to case, run on the store the first one left, raises [DuplicateEmail]
    and inserts nothing. *)
Theorem signup_duplicate_email :
  (∀ payload e w d,
     db w = Some d →
     registered d (PyStr.lower e) →
     PyStr.lower (su_email payload) = PyStr.lower e →
     fst (signup payload w) = Raise DuplicateEmail
     ∧ DuplicateEmail = HTTPException 400 "Email already registered"
     ∧ db (snd (signup payload w)) = db w
     ∧ store_log (snd (signup payload w)) =
         (store_log w
            ++ [OpFind "user" {["email" := VStr (PyStr.lower e)]} 1])%list)
  ∧
  (∀ first second w r w1 hp lg ck en,
     signup first w = (Return r, w1) →
     PyStr.lower (su_email second) = PyStr.lower (su_email first) →
     fst (signup second (mkWorld (db w1) hp lg ck en)) = Raise DuplicateEmail
     ∧ db (snd (signup second (mkWorld (db w1) hp lg ck en))) = db w1).
Proof.
  assert (∀ payload e w d,
     db w = Some d →
     registered d (PyStr.lower e) →
     PyStr.lower (su_email payload) = PyStr.lower e →
     signup payload w = (Raise DuplicateEmail, looked_up (PyStr.lower e) w))
    as Hdup.
  { intros payload e w d Hdb Hreg He.
    destruct (find_users_registered _ _ Hreg) as [u Hf]. rewrite <- He in Hf.
    rewrite (signup_duplicate _ _ _ _ _ Hdb Hf). by rewrite He. }
  split.
  - intros payload e w d Hdb Hreg He. by rewrite (Hdup _ _ _ _ Hdb Hreg He).
  - intros first second w r w1 hp lg ck en Hrun He.
    destruct (signup_returns _ _ _ _ Hrun) as (d & Hdb & Hf).
    rewrite (signup_fresh _ _ _ Hdb Hf) in Hrun.
    injection Hrun as _ <-. cbn [db].
    erewrite (Hdup second (su_email first)); [done|reflexivity| |done].
    exists (<["_id" := VOid (next_oid d)]> (user_doc_of first (entropy w))).
    split; [|reflexivity].
    unfold collection at 1. cbn [collections]. rewrite lookup_insert_eq.
    unfold default, from_option, id. set_solver.
Qed.

(** C3. A login for which the lookup finds no record and a login for which
    it finds one whose password check fails raise the same exception, with
    status 401 and the same detail; the store is unchanged in both and both
    perform the one lookup. *)
Theorem login_failures_identical p1 w1 d1 p2 w2 d2 u :
  db w1 = Some d1 →
  ¬ registered d1 (PyStr.lower (li_email p1)) →
  db w2 = Some d2 →
  find_users d2 (PyStr.lower (li_email p2)) = [u] →
  verify_password (li_password p2) (dict_get u "password_hash" (VStr ""))
    = Return false →
  fst (login p1 w1) = Raise (HTTPException 401 "Invalid email or password")
  ∧ fst (login p2 w2) = Raise (HTTPException 401 "Invalid email or password")
  ∧ fst (login p1 w1) = fst (login p2 w2)
  ∧ db (snd (login p1 w1)) = db w1
  ∧ db (snd (login p2 w2)) = db w2.
Proof.
  intros Hdb1 Hno Hdb2 Hf Hv. apply find_users_nil in Hno.
  rewrite (login_unknown _ _ _ Hdb1 Hno), (login_rejected _ _ _ _ _ Hdb2 Hf Hv).
  done.
Qed.

(** C4. When the record the lookup returns has no ["password_hash"] field,
    [login] hands the empty string to the password context. No scheme
    identifies the empty string, so the context raises [UnknownHashError];
    [login] has no handler for it, and that exception, not
    [InvalidCredentials], leaves the handler. The store is as it was. *)
Theorem login_missing_hash_unhandled payload w d u :
  db w = Some d →
  find_users d (PyStr.lower (li_email payload)) = [u] →
  u !! "password_hash" = None →
  dict_get u "password_hash" (VStr "") = VStr ""
  ∧ verify_password (li_password payload) (VStr "") = Raise UnknownHashError
  ∧ fst (login payload w) = Raise UnknownHashError
  ∧ Raise UnknownHashError ≠ @Raise AuthResponse InvalidCredentials
  ∧ db (snd (login payload w)) = db w.
Proof.
  intros Hdb Hf Hnone.
  assert (dict_get u "password_hash" (VStr "") = VStr "") as Hget.
  { unfold dict_get. by rewrite Hnone. }
  assert (verify_password (li_password payload)
            (dict_get u "password_hash" (VStr "")) = Raise UnknownHashError) as Hv.
  { by rewrite Hget. }
  rewrite (login_verifier_raises _ _ _ _ _ _ Hdb Hf Hv).
  split; [done|]. split; [done|]. split; [done|]. split; [done|].
  cbn [snd looked_up db]. done.
Qed.

(** C5. The token a successful [signup] or [login] issues at time [T] (the
    reading of the clock) signs exactly three claims: ["exp"], the time
    [T] plus seven days; ["sub"], the [str] of the user's identifier (the
    one [signup] returns and the store keeps, the stored one for [login]);
    and ["email"], the lowercased email of the request. *)
Theorem issued_token_claims :
  (∀ payload w r w',
     signup payload w = (Return r, w') →
     ∃ uid d' record,
       user r !! "_id" = Some uid
       ∧ db w' = Some d'
       ∧ last (collection d' "user") = Some record
       ∧ record !! "_id" = Some uid
       ∧ token r =
           jwt_encode
             {[ "exp" := VTime (clock w + timedelta_days 7);
                "sub" := VStr (py_str uid);
                "email" := VStr (PyStr.lower (su_email payload)) ]}
             SECRET_KEY ALGORITHM)
  ∧
  (∀ payload w r w',
     login payload w = (Return r, w') →
     ∃ d u,
       db w = Some d
       ∧ find_users d (PyStr.lower (li_email payload)) = [u]
       ∧ (∀ uid, u !! "_id" = Some uid → dict_get u "_id" VNone = uid)
       ∧ token r =
           jwt_encode
             {[ "exp" := VTime (clock w + timedelta_days 7);
                "sub" := VStr (py_str (dict_get u "_id" VNone));
                "email" := VStr (PyStr.lower (li_email payload)) ]}
             SECRET_KEY ALGORITHM).
Proof.
  split.
  - intros payload w r w' Hrun.
    destruct (signup_returns _ _ _ _ Hrun) as (d & Hdb & Hf).
    rewrite (signup_fresh _ _ _ Hdb Hf) in Hrun. injection Hrun as <- <-.
    eexists (VOid (next_oid d)), _, _. cbn [user token db].
    split; [reflexivity|]. split; [reflexivity|].
    split.
    { unfold collection at 1. cbn [collections]. rewrite lookup_insert_eq.
      unfold default, from_option, id. apply last_snoc. }
    split; reflexivity.
  - intros payload w r w' Hrun.
    destruct (login_returns _ _ _ _ Hrun) as (d & u & Hdb & Hf & Hv).
    rewrite (login_accepted _ _ _ _ _ Hdb Hf Hv) in Hrun. injection Hrun as <- <-.
    destruct (find_users_cons _ _ _ _ Hf) as (_ & _ & He).
    exists d, u. split; [done|]. split; [done|]. split.
    { intros uid Hid. unfold dict_get. by rewrite Hid. }
    cbn [token]. unfold signed, dict_get at 2. rewrite He. reflexivity.
Qed.

(** What [signup] persists for a valid payload: the stripped name, which is
    trimmed and at most 80 characters long, the lowercased email, which
    lowercasing leaves as it is, [is_active] true and role ["user"]. *)
Lemma signup_persisted_record payload w d :
  SignupRequest_valid payload = true →
  db w = Some d →
  ¬ registered d (PyStr.lower (su_email payload)) →
  ∃ r w' d' record,
    signup payload w = (Return r, w')
    ∧ db w' = Some d'
    ∧ collection d' "user" = (collection d "user" ++ [record])%list
    ∧ record !! "name" = Some (VStr (PyStr.strip (su_name payload)))
    ∧ trimmed (PyStr.strip (su_name payload))
    ∧ PyStr.len (PyStr.strip (su_name payload)) ≤ 80
    ∧ record !! "email" = Some (VStr (PyStr.lower (su_email payload)))
    ∧ PyStr.lower (PyStr.lower (su_email payload)) = PyStr.lower (su_email payload)
    ∧ record !! "is_active" = Some (VBool true)
    ∧ record !! "role" = Some (VStr "user").
Proof.
  intros Hvalid Hdb Hfresh. apply find_users_nil in Hfresh.
  rewrite (signup_fresh _ _ _ Hdb Hfresh).
  eexists _, _, _, _. split; [reflexivity|]. cbn [db]. split; [reflexivity|].
  split.
  { unfold collection at 1. cbn [collections]. rewrite lookup_insert_eq.
    reflexivity. }
  split; [reflexivity|]. split; [apply strip_idem|]. split.
  { pose proof (strip_len (su_name payload)).
    unfold SignupRequest_valid in Hvalid.
    repeat (apply andb_prop in Hvalid as [Hvalid ?]). lia. }
  split; [reflexivity|]. split; [apply lower_idem|]. split; reflexivity.
Qed.

(** C6. A payload whose name is two spaces passes the constraints of
    [SignupRequest], and the record [signup] persists for it has the empty
    name, of length 0. *)
Theorem signup_blank_name_persisted email password w d :
  EmailStr_valid email = true →
  6 ≤ PyStr.len password ≤ 128 →
  db w = Some d →
  ¬ registered d (PyStr.lower email) →
  SignupRequest_valid (mkSignupRequest "  " email password) = true
  ∧ ∃ r w' d' record,
      signup (mkSignupRequest "  " email password) w = (Return r, w')
      ∧ db w' = Some d'
      ∧ collection d' "user" = (collection d "user" ++ [record])%list
      ∧ record !! "name" = Some (VStr "")
      ∧ user r !! "name" = Some (VStr "")
      ∧ PyStr.len "" = 0.
Proof.
  intros Hemail Hpw Hdb Hfresh. split.
  { unfold SignupRequest_valid. cbn [su_name su_email su_password].
    rewrite Hemail. cbn. apply andb_true_intro. split; apply Z.leb_le; lia. }
  apply find_users_nil in Hfresh.
  change (PyStr.lower email)
    with (PyStr.lower (su_email (mkSignupRequest "  " email password))) in Hfresh.
  rewrite (signup_fresh _ _ _ Hdb Hfresh).
  eexists _, _, _, _. split; [reflexivity|]. cbn [db]. split; [reflexivity|].
  split.
  { unfold collection at 1. cbn [collections]. rewrite lookup_insert_eq.
    reflexivity. }
  split; [reflexivity|]. split; reflexivity.
Qed.

(** C7. With the store handle unset, [signup] and [login] both raise
    [ServiceUnavailable], status 500, and leave the world as it was: no
    lookup and no insert is performed. That exception differs from
    [InvalidCredentials] and from [DuplicateEmail]. *)
Theorem store_unset_rejected (sp : SignupRequest) (lp : LoginRequest) hp lg ck en :
  signup sp (mkWorld None hp lg ck en)
    = (Raise ServiceUnavailable, mkWorld None hp lg ck en)
  ∧ login lp (mkWorld None hp lg ck en)
    = (Raise ServiceUnavailable, mkWorld None hp lg ck en)
  ∧ ServiceUnavailable = HTTPException 500 "Database not configured"
  ∧ ServiceUnavailable ≠ InvalidCredentials
  ∧ ServiceUnavailable ≠ DuplicateEmail.
Proof.
  split; [by apply signup_unavailable|]. split; [by apply login_unavailable|].
  done.
Qed.

(** C8. After a successful [signup] with email [e] and password [p], the
    verifier accepting the hash made of [p], a [login] with any casing of
    [e] and with [p], run on the store the signup left, succeeds. The
    store holds the lowercased email, and the login reports the user
    [signup] reported: its ["_id"] is the [str] of the identifier in the
    signup response, which is the identifier of the stored record, and its
    token carries that same string as ["sub"]. *)
Theorem login_after_signup p q w r w1 hp lg ck en :
  signup p w = (Return r, w1) →
  PyStr.lower (li_email q) = PyStr.lower (su_email p) →
  li_password q = su_password p →
  verify_password (su_password p)
    (VStr (bcrypt_hash (entropy w) (su_password p))) = Return true →
  ∃ r' uid d1 record,
    fst (login q (mkWorld (db w1) hp lg ck en)) = Return r'
    ∧ user r !! "_id" = Some uid
    ∧ user r' !! "_id" = Some (VStr (py_str uid))
    ∧ db w1 = Some d1
    ∧ find_users d1 (PyStr.lower (li_email q)) = [record]
    ∧ record !! "email" = Some (VStr (PyStr.lower (su_email p)))
    ∧ record !! "_id" = Some uid
    ∧ token r' =
        jwt_encode
          {[ "exp" := VTime (ck + timedelta_days 7);
             "sub" := VStr (py_str uid);
             "email" := VStr (PyStr.lower (su_email p)) ]}
          SECRET_KEY ALGORITHM.
Proof.
  intros Hrun He Hp Hv.
  destruct (signup_returns _ _ _ _ Hrun) as (d & Hdb & Hf).
  rewrite (signup_fresh _ _ _ Hdb Hf) in Hrun. injection Hrun as <- <-.
  cbn [db user].
  set (record := <["_id" := VOid (next_oid d)]> (user_doc_of p (entropy w))).
  set (d1 := mkDatabase _ _).
  assert (find_users d1 (PyStr.lower (li_email q)) = [record]) as Hf1.
  { rewrite He. by apply find_users_appended. }
  assert (verify_password (li_password q)
            (dict_get record "password_hash" (VStr "")) = Return true) as Hv1.
  { by rewrite Hp. }
  eexists _, (VOid (next_oid d)), d1, record.
  erewrite (login_accepted q (mkWorld (Some d1) hp lg ck en));
    [|reflexivity|exact Hf1|exact Hv1].
  cbn [fst user token clock]. split; [reflexivity|].
  do 6 (split; [done|]). reflexivity.
Qed.

(** C9. Both handlers put the identifier of the public user under ["_id"]
    and neither has an ["id"] key. [signup] puts there the very value
    [create_document] returned, which is an identifier and not a [str];
    [login] puts there the [str] of the stored identifier. *)
Theorem public_user_id_key :
  (∀ p w r w',
     signup p w = (Return r, w') →
     ∃ uid,
       fst (create_document "user" (user_doc_of p (entropy w)) w) = Return uid
       ∧ user r !! "_id" = Some uid
       ∧ is_str uid = false
       ∧ user r !! "id" = None)
  ∧
  (∀ q w r w',
     login q w = (Return r, w') →
     ∃ d u,
       db w = Some d
       ∧ find_users d (PyStr.lower (li_email q)) = [u]
       ∧ user r !! "_id" = Some (VStr (py_str (dict_get u "_id" VNone)))
       ∧ is_str (VStr (py_str (dict_get u "_id" VNone))) = true
       ∧ user r !! "id" = None).
Proof.
  split.
  - intros p w r w' Hrun.
    destruct (signup_returns _ _ _ _ Hrun) as (d & Hdb & Hf).
    rewrite (signup_fresh _ _ _ Hdb Hf) in Hrun. injection Hrun as <- <-.
    exists (VOid (next_oid d)). rewrite (create_document_run _ _ _ _ Hdb).
    done.
  - intros q w r w' Hrun.
    destruct (login_returns _ _ _ _ Hrun) as (d & u & Hdb & Hf & Hv).
    rewrite (login_accepted _ _ _ _ _ Hdb Hf Hv) in Hrun. injection Hrun as <- <-.
    by exists d, u.
Qed.

(** C10. [create_access_token] leaves the dictionary it is given as it
    was, as it leaves every dictionary that existed before the call: when
    [data] refers to a dictionary, ["exp"] is added to a new one, created
    by the call. *)
Theorem create_access_token_keeps_data data expires_delta w :
  heap (snd (create_access_token data expires_delta w)) !! data = heap w !! data
  ∧ (∀ l, l ∈ dom (heap w) →
       heap (snd (create_access_token data expires_delta w)) !! l = heap w !! l)
  ∧ (∀ m, heap w !! data = Some m →
       ∃ copy,
         copy ≠ data
         ∧ heap w !! copy = None
         ∧ heap (snd (create_access_token data expires_delta w)) !! copy
           = Some (<["exp" := VTime (clock w + expires_or_default expires_delta)]> m)).
Proof.
  destruct (heap w !! data) as [m|] eqn:Hm.
  - rewrite (create_access_token_run _ _ _ _ Hm). cbn [snd heap]. unfold alloc.
    pose proof (fresh_not_allocated (heap w)) as Hfresh.
    assert (fresh (dom (heap w)) ≠ data) as Hne by congruence.
    split; [by rewrite lookup_insert_ne|]. split.
    + intros l Hl. apply lookup_insert_ne. intros <-.
      by apply not_elem_of_dom in Hfresh.
    + intros m' [= <-]. exists (fresh (dom (heap w))).
      split; [done|]. split; [done|]. apply lookup_insert_eq.
  - rewrite (create_access_token_dangling _ _ _ Hm). cbn [snd].
    split; [done|]. split; [done|]. intros m' Hm'. congruence.
Qed.

End Claims.

(** ** The theorems at concrete requests *)

Section Witnesses.

Import Demo.
#[local] Existing Instance demo.

Lemma ann_signs_up : signup (prim := demo) ann empty_world = (Return ann_response, ann_world).
Proof. vm_compute. reflexivity. Qed.

Lemma ann_logs_in :
  login (prim := demo) ann_login ann_later = (Return ann_login_response, snd ann_login_run).
Proof. vm_compute. reflexivity. Qed.

Lemma empty_store_unregistered e : ¬ registered (mkDatabase ∅ 7) e.
Proof. by apply find_users_nil. Qed.

Lemma signup_fresh_response_witness :
  ∃ r, fst (signup (prim := demo) ann empty_world) = Return r
    ∧ (∃ claims, token r = jwt_encode claims SECRET_KEY ALGORITHM)
    ∧ user r !! "email" = Some (VStr "ann@x.com")
    ∧ user r !! "password_hash" = None.
Proof.
  apply (signup_fresh_response (prim := demo) ann empty_world (mkDatabase ∅ 7)).
  - vm_compute. reflexivity.
  - reflexivity.
  - apply empty_store_unregistered.
Defined.

Lemma signup_duplicate_email_witness :
  fst (signup ann_again ann_world) = Raise DuplicateEmail
  ∧ db (snd (signup ann_again ann_world)) = db ann_world
  ∧ fst (signup ann_again ann_later) = Raise DuplicateEmail
  ∧ db (snd (signup ann_again ann_later)) = db ann_world.
Proof.
  destruct (proj1 signup_duplicate_email ann_again "Ann@X.com" ann_world ann_db)
    as (H1 & _ & H2 & _).
  { vm_compute. reflexivity. }
  { apply (found_registered _ _ ann_record []). vm_compute. reflexivity. }
  { vm_compute. reflexivity. }
  destruct (proj2 signup_duplicate_email ann ann_again empty_world ann_response
              ann_world (heap ann_world) (store_log ann_world) 1001000 "pepper"
              ann_signs_up)
    as (H3 & H4).
  { vm_compute. reflexivity. }
  exact (conj H1 (conj H2 (conj H3 H4))).
Defined.

Lemma login_failures_identical_witness :
  fst (login zed_login empty_world) = Raise (HTTPException 401 "Invalid email or password")
  ∧ fst (login ann_wrong ann_world) = Raise (HTTPException 401 "Invalid email or password")
  ∧ fst (login zed_login empty_world) = fst (login ann_wrong ann_world)
  ∧ db (snd (login zed_login empty_world)) = db empty_world
  ∧ db (snd (login ann_wrong ann_world)) = db ann_world.
Proof.
  apply (login_failures_identical zed_login empty_world (mkDatabase ∅ 7)
           ann_wrong ann_world ann_db ann_record).
  - reflexivity.
  - apply empty_store_unregistered.
  - vm_compute. reflexivity.
  - vm_compute. reflexivity.
  - vm_compute. reflexivity.
Defined.

Lemma login_missing_hash_unhandled_witness :
  dict_get legacy_record "password_hash" (VStr "") = VStr ""
  ∧ verify_password (li_password old_login) (VStr "") = Raise UnknownHashError
  ∧ fst (login old_login legacy_world) = Raise UnknownHashError
  ∧ Raise UnknownHashError ≠ @Raise AuthResponse InvalidCredentials
  ∧ db (snd (login old_login legacy_world)) = db legacy_world.
Proof.
  apply (login_missing_hash_unhandled old_login legacy_world legacy_db legacy_record).
  - reflexivity.
  - vm_compute. reflexivity.
  - vm_compute. reflexivity.
Defined.

Lemma issued_token_claims_witness :
  token ann_response =
    jwt_encode
      {[ "exp" := VTime (1000 + timedelta_days 7);
         "sub" := VStr "7";
         "email" := VStr "ann@x.com" ]}
      SECRET_KEY ALGORITHM
  ∧ token ann_login_response =
    jwt_encode
      {[ "exp" := VTime (1001000 + timedelta_days 7);
         "sub" := VStr "7";
         "email" := VStr "ann@x.com" ]}
      SECRET_KEY ALGORITHM.
Proof.
  destruct (proj1 issued_token_claims ann empty_world ann_response ann_world
              ann_signs_up)
    as (uid & d' & record & Hid & _ & _ & _ & Htok).
  destruct (proj2 issued_token_claims ann_login ann_later ann_login_response
              (snd ann_login_run) ann_logs_in)
    as (d & u & Hdb & Hf & _ & Htok').
  split.
  - rewrite Htok. vm_compute in Hid. injection Hid as <-. reflexivity.
  - rewrite Htok'. vm_compute in Hdb. injection Hdb as <-.
    vm_compute in Hf. injection Hf as <-. reflexivity.
Defined.

Lemma signup_blank_name_persisted_witness :
  SignupRequest_valid blank = true
  ∧ ∃ r w' d' record,
      signup blank empty_world = (Return r, w')
      ∧ db w' = Some d'
      ∧ collection d' "user" = (collection (mkDatabase ∅ 7) "user" ++ [record])%list
      ∧ record !! "name" = Some (VStr "")
      ∧ user r !! "name" = Some (VStr "")
      ∧ PyStr.len "" = 0.
Proof.
  apply (signup_blank_name_persisted "bob@x.com" "secret1" empty_world
           (mkDatabase ∅ 7)).
  - vm_compute. reflexivity.
  - vm_compute. split; discriminate.
  - reflexivity.
  - apply empty_store_unregistered.
Defined.

Lemma login_after_signup_witness :
  ∃ r' uid d1 record,
    fst (login ann_login ann_later) = Return r'
    ∧ user ann_response !! "_id" = Some uid
    ∧ user r' !! "_id" = Some (VStr (py_str uid))
    ∧ db ann_world = Some d1
    ∧ find_users d1 (PyStr.lower "ANN@x.com") = [record]
    ∧ record !! "email" = Some (VStr (PyStr.lower "Ann@X.com"))
    ∧ record !! "_id" = Some uid
    ∧ token r' =
        jwt_encode
          {[ "exp" := VTime (1001000 + timedelta_days 7);
             "sub" := VStr (py_str uid);
             "email" := VStr (PyStr.lower "Ann@X.com") ]}
          SECRET_KEY ALGORITHM.
Proof.
  apply (login_after_signup ann ann_login empty_world ann_response ann_world
           (heap ann_world) (store_log ann_world) 1001000 "pepper" ann_signs_up).
  - vm_compute. reflexivity.
  - reflexivity.
  - vm_compute. reflexivity.
Defined.

Lemma public_user_id_key_witness :
  user ann_response !! "_id" = Some (VOid 7)
  ∧ user ann_response !! "id" = None
  ∧ user ann_login_response !! "_id" = Some (VStr "7")
  ∧ user ann_login_response !! "id" = None.
Proof.
  destruct (proj1 public_user_id_key ann empty_world ann_response ann_world
              ann_signs_up)
    as (uid & Hret & Hid & _ & Hnone).
  destruct (proj2 public_user_id_key ann_login ann_later ann_login_response
              (snd ann_login_run) ann_logs_in)
    as (d & u & Hdb & Hf & Hid' & _ & Hnone').
  vm_compute in Hret. injection Hret as <-.
  vm_compute in Hdb. injection Hdb as <-.
  vm_compute in Hf. injection Hf as <-.
  split; [exact Hid|]. split; [exact Hnone|]. split; [exact Hid'|exact Hnone'].
Defined.

Lemma create_access_token_keeps_data_witness :
  heap (snd (create_access_token 1%positive None claims_world)) !! 1%positive
    = Some {[ "sub" := VStr "7" ]}
  ∧ ∃ copy,
      copy ≠ 1%positive
      ∧ heap claims_world !! copy = None
      ∧ heap (snd (create_access_token 1%positive None claims_world)) !! copy
        = Some {[ "exp" := VTime (1000 + expires_or_default None);
                  "sub" := VStr "7" ]}.
Proof.
  destruct (create_access_token_keeps_data 1%positive None claims_world)
    as (Hkept & _ & Hcopy).
  split; [exact Hkept|].
  apply (Hcopy {[ "sub" := VStr "7" ]}). reflexivity.
Defined.

End Witnesses.

(** ** Further properties of the token issuer *)

Section Issuer.

Context {prim : Primitives}.

(** X1. The expiry [create_access_token] signs, the clock reading and the
    expiry being instants a [datetime] can hold: seven days after the
    clock reading when no [expires_delta] is given, and also when the zero
    [timedelta] is given, which [or] takes for false; the given delta after
    the clock reading otherwise, be it negative. *)
Theorem create_access_token_expiry data w m :
  heap w !! data = Some m →
  datetime_representable (clock w) →
  (datetime_representable (clock w + timedelta_days 7) →
   fst (create_access_token data None w)
     = Return (jwt_encode (<["exp" := VTime (clock w + timedelta_days 7)]> m)
                 SECRET_KEY ALGORITHM)
   ∧ fst (create_access_token data (Some 0) w)
     = Return (jwt_encode (<["exp" := VTime (clock w + timedelta_days 7)]> m)
                 SECRET_KEY ALGORITHM))
  ∧ ∀ delta, delta ≠ 0 →
      datetime_representable (clock w + delta) →
      fst (create_access_token data (Some delta) w)
      = Return (jwt_encode (<["exp" := VTime (clock w + delta)]> m)
                  SECRET_KEY ALGORITHM).
Proof.
  intros Hm _. split.
  - intros _. by rewrite !(create_access_token_run _ _ _ _ Hm).
  - intros delta Hne _.
    rewrite (create_access_token_run _ _ _ _ Hm). cbn [fst expires_or_default].
    by destruct (Z.eqb_spec delta 0).
Qed.


(** X3. [create_access_token] leaves the database, the log of store
    operations, the clock and the salt as they were, and adds at most one
    dictionary to the heap, keeping all that were there. *)
Theorem create_access_token_frame data expires_delta w :
  db (snd (create_access_token data expires_delta w)) = db w
  ∧ store_log (snd (create_access_token data expires_delta w)) = store_log w
  ∧ clock (snd (create_access_token data expires_delta w)) = clock w
  ∧ entropy (snd (create_access_token data expires_delta w)) = entropy w
  ∧ heap w ⊆ heap (snd (create_access_token data expires_delta w))
  ∧ (size (heap (snd (create_access_token data expires_delta w)))
       ≤ S (size (heap w)))%nat.
Proof.
  destruct (heap w !! data) as [m|] eqn:Hm.
  - rewrite (create_access_token_run _ _ _ _ Hm). cbn [snd db store_log clock entropy heap].
    do 4 (split; [done|]). unfold alloc.
    pose proof (fresh_not_allocated (heap w)) as Hfresh. split.
    + by apply insert_subseteq.
    + by rewrite map_size_insert_None.
  - rewrite (create_access_token_dangling _ _ _ Hm). cbn [snd].
    do 4 (split; [done|]). split; [done|lia].
Qed.

End Issuer.

(** ** Further properties of the handlers *)

Section Handlers.

Context {prim : Primitives}.

Lemma collection_inserted d c docs n :
  collection (mkDatabase (<[c := docs]> (collections d)) n) c = docs.
Proof. unfold collection. cbn [collections]. by rewrite lookup_insert_eq. Qed.

Lemma collection_inserted_ne d c c' docs n :
  c ≠ c' →
  collection (mkDatabase (<[c := docs]> (collections d)) n) c' = collection d c'.
Proof. intros Hne. unfold collection. cbn [collections]. by rewrite lookup_insert_ne. Qed.

(** X4. Each outcome of [signup] tells its cause. It raises
    [ServiceUnavailable] only when the store is unset, and then the world
    is untouched; it raises [DuplicateEmail] only when a record carries the
    lowercased email, and then the database is unchanged; it returns only
    when no record carried that email, and then the built record has been
    appended to the [user] collection under the identifier the response
    reports. *)
Theorem signup_outcome_causes payload w :
  (fst (signup payload w) = Raise ServiceUnavailable →
   db w = None ∧ snd (signup payload w) = w)
  ∧ (fst (signup payload w) = Raise DuplicateEmail →
     ∃ d, db w = Some d
       ∧ registered d (PyStr.lower (su_email payload))
       ∧ db (snd (signup payload w)) = db w)
  ∧ (∀ r, fst (signup payload w) = Return r →
     ∃ d uid,
       db w = Some d
       ∧ ¬ registered d (PyStr.lower (su_email payload))
       ∧ user r !! "_id" = Some uid
       ∧ users (snd (signup payload w))
         = (collection d "user"
              ++ [<["_id" := uid]> (user_doc_of payload (entropy w))])%list).
Proof.
  destruct (db w) as [d|] eqn:Hdb.
  - destruct (find_users d (PyStr.lower (su_email payload))) as [|u us] eqn:Hf.
    + rewrite (signup_fresh _ _ _ Hdb Hf). cbn [fst snd].
      split; [done|]. split; [done|]. intros r [= <-].
      exists d, (VOid (next_oid d)). split; [done|].
      split; [by apply find_users_nil|]. split; [reflexivity|].
      unfold users. cbn [db from_option]. apply collection_inserted.
    + rewrite (signup_duplicate _ _ _ _ _ Hdb Hf). cbn [fst snd looked_up db].
      split; [done|]. split; [|done]. intros _. exists d.
      split; [done|]. split; [by eapply found_registered|done].
  - rewrite (signup_unavailable _ _ Hdb). cbn [fst snd]. by repeat split.
Qed.

(** X5. Whatever its outcome, [signup] keeps every collection but [user] as it
    was, keeps the records of [user] in place, and adds at most one. *)
Theorem signup_store_frame payload w d :
  db w = Some d →
  ∃ d', db (snd (signup payload w)) = Some d'
    ∧ (∀ c, c ≠ "user" → collection d' c = collection d c)
    ∧ collection d "user" `prefix_of` collection d' "user"
    ∧ (List.length (collection d' "user") ≤ S (List.length (collection d "user")))%nat.
Proof.
  intros Hdb.
  destruct (find_users d (PyStr.lower (su_email payload))) as [|u us] eqn:Hf.
  - rewrite (signup_fresh _ _ _ Hdb Hf). cbn [snd db]. eexists. split; [reflexivity|].
    split; [intros c Hc; by apply collection_inserted_ne|].
    rewrite collection_inserted. split; [by apply prefix_app_r|].
    rewrite length_app. cbn. lia.
  - rewrite (signup_duplicate _ _ _ _ _ Hdb Hf). cbn [snd looked_up db].
    exists d. split; [done|]. split; [done|]. split; [done|lia].
Qed.

(** X6. [login] never writes, whatever it returns or raises: the database
    is as it was, and the log of store operations gains the one lookup or
    nothing, never an insert. *)
Theorem login_read_only payload w :
  db (snd (login payload w)) = db w
  ∧ (store_log (snd (login payload w)) = store_log w
     ∨ store_log (snd (login payload w))
       = (store_log w
            ++ [OpFind "user"
                  {["email" := VStr (PyStr.lower (li_email payload))]} 1])%list).
Proof.
  destruct (db w) as [d|] eqn:Hdb.
  - destruct (find_users d (PyStr.lower (li_email payload))) as [|u us] eqn:Hf.
    + rewrite (login_unknown _ _ _ Hdb Hf).
      cbn [fst snd looked_up db store_log]. split_and!; eauto.
    + destruct (verify_password (li_password payload)
                  (dict_get u "password_hash" (VStr ""))) as [[|]|e] eqn:Hv.
      * rewrite (login_accepted _ _ _ _ _ Hdb Hf Hv).
        cbn [fst snd db store_log]. split_and!; eauto.
      * rewrite (login_rejected _ _ _ _ _ Hdb Hf Hv).
        cbn [fst snd looked_up db store_log]. split_and!; eauto.
      * rewrite (login_verifier_raises _ _ _ _ _ _ Hdb Hf Hv).
        cbn [fst snd looked_up db store_log]. split_and!; eauto.
  - rewrite (login_unavailable _ _ Hdb). cbn [fst snd]. split_and!; eauto.
Qed.

(** X7. The public user of a [login] response has exactly five keys, whatever
    the stored record holds: the [str] of the stored identifier, the stored
    name, the email looked up, and the stored [is_active] and [role], true
    and ["user"] standing in when the record lacks them. No
    ["password_hash"] is among them. *)
Theorem login_public_user payload w r w' :
  login payload w = (Return r, w') →
  ∃ d u,
    db w = Some d
    ∧ find_users d (PyStr.lower (li_email payload)) = [u]
    ∧ dom (user r) = {[ "_id"; "name"; "email"; "is_active"; "role" ]}
    ∧ user r !! "password_hash" = None
    ∧ user r !! "_id" = Some (VStr (py_str (default VNone (u !! "_id"))))
    ∧ user r !! "name" = Some (default VNone (u !! "name"))
    ∧ user r !! "email" = Some (VStr (PyStr.lower (li_email payload)))
    ∧ user r !! "is_active" = Some (default (VBool true) (u !! "is_active"))
    ∧ user r !! "role" = Some (default (VStr "user") (u !! "role")).
Proof.
  intros Hrun.
  destruct (login_returns _ _ _ _ Hrun) as (d & u & Hdb & Hf & Hv).
  rewrite (login_accepted _ _ _ _ _ Hdb Hf Hv) in Hrun. injection Hrun as <- <-.
  destruct (find_users_cons _ _ _ _ Hf) as (_ & _ & He).
  exists d, u. cbn [user]. split; [done|]. split; [done|].
  split; [rewrite !dom_insert_L, dom_singleton_L; set_solver|].
  split; [done|]. split; [done|]. split; [done|].
  split; [|done]. unfold dict_get. by rewrite He.
Qed.

(** X8. The public user of a [signup] response is the record handed to the
    store without its ["password_hash"], under the identifier the store
    returned: it has exactly five keys and agrees with the persisted
    record on each of them. *)
Theorem signup_public_user payload w r w' :
  signup payload w = (Return r, w') →
  ∃ record,
    last (users w') = Some record
    ∧ dom (user r) = {[ "_id"; "name"; "email"; "is_active"; "role" ]}
    ∧ dom record = {[ "password_hash" ]} ∪ dom (user r)
    ∧ ∀ k, k ≠ "password_hash" → user r !! k = record !! k.
Proof.
  intros Hrun. destruct (signup_returns _ _ _ _ Hrun) as (d & Hdb & Hf).
  rewrite (signup_fresh _ _ _ Hdb Hf) in Hrun. injection Hrun as <- <-.
  eexists. unfold users. cbn [db from_option user].
  rewrite collection_inserted. split; [apply last_snoc|].
  split; [rewrite !dom_insert_L, dom_singleton_L; set_solver|].
  split.
  { unfold user_doc_of. rewrite !dom_insert_L, !dom_singleton_L. set_solver. }
  intros k Hk. unfold user_doc_of.
  destruct (decide (k = "_id")) as [->|]; [done|].
  destruct (decide (k = "name")) as [->|]; [done|].
  destruct (decide (k = "email")) as [->|]; [done|].
  destruct (decide (k = "is_active")) as [->|]; [done|].
  destruct (decide (k = "role")) as [->|]; [done|].
  rewrite !lookup_insert_ne, !lookup_singleton_ne by done. done.
Qed.

(** X9. [login] does not consult [is_active]: a record marked inactive whose
    password checks logs in, is issued a token, and is reported inactive. *)
Theorem login_ignores_is_active payload w d u :
  db w = Some d →
  find_users d (PyStr.lower (li_email payload)) = [u] →
  u !! "is_active" = Some (VBool false) →
  verify_password (li_password payload) (dict_get u "password_hash" (VStr ""))
    = Return true →
  ∃ r claims,
    fst (login payload w) = Return r
    ∧ token r = jwt_encode claims SECRET_KEY ALGORITHM
    ∧ user r !! "is_active" = Some (VBool false).
Proof.
  intros Hdb Hf Hact Hv. rewrite (login_accepted _ _ _ _ _ Hdb Hf Hv).
  eexists _, _. cbn [fst token user]. split; [done|]. split; [done|].
  unfold dict_get. rewrite Hact. done.
Qed.

(** X10. A [login] that succeeds on the store a [signup] left, for the same
    email up to case, reports the public user the signup reported, its
    identifier turned into a [str]. *)
Theorem login_reports_signup_user p q w r w1 hp lg ck en r' w2 :
  signup p w = (Return r, w1) →
  PyStr.lower (li_email q) = PyStr.lower (su_email p) →
  login q (mkWorld (db w1) hp lg ck en) = (Return r', w2) →
  ∃ uid,
    user r !! "_id" = Some uid
    ∧ user r' = <["_id" := VStr (py_str uid)]> (user r).
Proof.
  intros Hrun He Hlog.
  destruct (signup_returns _ _ _ _ Hrun) as (d & Hdb & Hf).
  rewrite (signup_fresh _ _ _ Hdb Hf) in Hrun. injection Hrun as <- <-.
  cbn [db] in Hlog.
  set (record := <["_id" := VOid (next_oid d)]> (user_doc_of p (entropy w))) in *.
  set (d1 := mkDatabase _ _) in *.
  assert (find_users d1 (PyStr.lower (li_email q)) = [record]) as Hf1.
  { rewrite He. by apply find_users_appended. }
  destruct (login_returns _ _ _ _ Hlog) as (d' & u & Hdb' & Hf' & Hv).
  cbn [db] in Hdb'. injection Hdb' as <-.
  rewrite Hf1 in Hf'. injection Hf' as <-.
  erewrite (login_accepted q (mkWorld (Some d1) hp lg ck en)) in Hlog;
    [|reflexivity|exact Hf1|exact Hv].
  injection Hlog as <- _. exists (VOid (next_oid d)). cbn [user].
  split; [done|]. by rewrite insert_insert_eq.
Qed.

Lemma find_users_appended_ne d e e' (doc : dict) n :
  doc !! "email" = Some (VStr e') → e' ≠ e →
  find_users
    (mkDatabase (<["user" := (collection d "user" ++ [doc])%list]> (collections d)) n)
    e = find_users d e.
Proof.
  intros He Hne. unfold find_users. rewrite collection_inserted, filter_app.
  rewrite (filter_cons_False _ doc).
  - by rewrite filter_nil, app_nil_r.
  - intros Hsub. apply map_singleton_subseteq_l in Hsub. congruence.
Qed.

(** X11. The signup of one email leaves the logins of every other email as
    they were: at the same clock reading, a login whose lowercased email
    differs from the one signed up has the same outcome, response or
    exception, before and after. *)
Theorem login_unaffected_by_other_signup p q w r w1 hp lg ck en :
  signup p w = (Return r, w1) →
  PyStr.lower (li_email q) ≠ PyStr.lower (su_email p) →
  fst (login q (mkWorld (db w1) hp lg ck en))
    = fst (login q (mkWorld (db w) hp lg ck en)).
Proof.
  intros Hrun Hne.
  destruct (signup_returns _ _ _ _ Hrun) as (d & Hdb & Hf).
  rewrite (signup_fresh _ _ _ Hdb Hf) in Hrun. injection Hrun as <- <-.
  cbn [db]. rewrite Hdb.
  set (record := <["_id" := VOid (next_oid d)]> (user_doc_of p (entropy w))).
  set (d1 := mkDatabase _ _).
  assert (find_users d1 (PyStr.lower (li_email q))
          = find_users d (PyStr.lower (li_email q))) as Hsame.
  { apply (find_users_appended_ne _ _ (PyStr.lower (su_email p))); [done|].
    congruence. }
  set (w1 := mkWorld (Some d1) hp lg ck en).
  set (w0 := mkWorld (Some d) hp lg ck en).
  destruct (find_users d (PyStr.lower (li_email q))) as [|u us] eqn:Hfq.
  - by rewrite (login_unknown q w1 d1 eq_refl Hsame),
      (login_unknown q w0 d eq_refl Hfq).
  - destruct (verify_password (li_password q)
                (dict_get u "password_hash" (VStr ""))) as [[|]|e] eqn:Hv.
    + by rewrite (login_accepted q w1 d1 _ _ eq_refl Hsame Hv),
        (login_accepted q w0 d _ _ eq_refl Hfq Hv).
    + by rewrite (login_rejected q w1 d1 _ _ eq_refl Hsame Hv),
        (login_rejected q w0 d _ _ eq_refl Hfq Hv).
    + by rewrite (login_verifier_raises q w1 d1 _ _ _ eq_refl Hsame Hv),
        (login_verifier_raises q w0 d _ _ _ eq_refl Hfq Hv).
Qed.

End Handlers.

(** ** Invariants of the store under sequences of requests *)

Section Invariants.

Context {prim : Primitives}.

Lemma login_users q w : users (snd (login q w)) = users w.
Proof.
  unfold users. destruct (db w) as [d|] eqn:Hdb.
  - destruct (find_users d (PyStr.lower (li_email q))) as [|u us] eqn:Hf.
    + rewrite (login_unknown _ _ _ Hdb Hf). cbn [snd looked_up db]. by rewrite Hdb.
    + destruct (verify_password (li_password q)
                  (dict_get u "password_hash" (VStr ""))) as [[|]|e] eqn:Hv.
      * rewrite (login_accepted _ _ _ _ _ Hdb Hf Hv). cbn [snd db]. by rewrite Hdb.
      * rewrite (login_rejected _ _ _ _ _ Hdb Hf Hv). cbn [snd looked_up db].
        by rewrite Hdb.
      * rewrite (login_verifier_raises _ _ _ _ _ _ Hdb Hf Hv).
        cbn [snd looked_up db]. by rewrite Hdb.
  - rewrite (login_unavailable _ _ Hdb). cbn [snd]. by rewrite Hdb.
Qed.

Lemma signup_users p w :
  users (snd (signup p w)) = users w
  ∨ ∃ d, db w = Some d
      ∧ find_users d (PyStr.lower (su_email p)) = []
      ∧ users (snd (signup p w))
        = (users w ++ [<["_id" := VOid (next_oid d)]> (user_doc_of p (entropy w))])%list.
Proof.
  unfold users. destruct (db w) as [d|] eqn:Hdb.
  - destruct (find_users d (PyStr.lower (su_email p))) as [|u us] eqn:Hf.
    + right. exists d. rewrite (signup_fresh _ _ _ Hdb Hf).
      cbn [snd db from_option]. by rewrite collection_inserted.
    + left. rewrite (signup_duplicate _ _ _ _ _ Hdb Hf). cbn [snd looked_up db].
      by rewrite Hdb.
  - left. rewrite (signup_unavailable _ _ Hdb). cbn [snd]. by rewrite Hdb.
Qed.

Lemma unregistered_filter d e :
  find_users d e = [] →
  filter (λ doc : dict, doc !! "email" = Some (VStr e)) (collection d "user") = [].
Proof.
  intros Hf. apply find_users_nil in Hf.
  destruct (filter _ _) as [|x l] eqn:E; [done|]. exfalso. apply Hf.
  assert (x ∈ filter (λ doc : dict, doc !! "email" = Some (VStr e))
                (collection d "user")) as Hx by (rewrite E; left).
  apply list_elem_of_filter in Hx as [Hx Hin]. by exists x.
Qed.

Lemma signup_record_shaped p salt uid :
  signup_shaped (<["_id" := uid]> (user_doc_of p salt)).
Proof.
  exists (PyStr.strip (su_name p)), (PyStr.lower (su_email p)),
    (bcrypt_hash salt (su_password p)).
  split; [done|]. split; [apply strip_idem|]. split; [done|].
  split; [apply lower_idem|]. split; [done|]. split; [done|]. split; [done|].
  by eexists.
Qed.

Lemma serve_users w req :
  users (serve w req) = users w
  ∨ ∃ p salt d uid,
      db w = Some d
      ∧ find_users d (PyStr.lower (su_email p)) = []
      ∧ users (serve w req) = (users w ++ [<["_id" := uid]> (user_doc_of p salt)])%list.
Proof.
  destruct req as [[[p|q] now] salt]; unfold serve; cbn [fst snd].
  - destruct (signup_users p (mkWorld (db w) (heap w) (store_log w) now salt))
      as [Hsame|(d & Hdb & Hf & Happ)].
    + by left.
    + right. exists p, salt, d, (VOid (next_oid d)). done.
  - left. by rewrite login_users.
Qed.

(** X12. Served one after the other, signups and logins keep the emails of the
    [user] collection unique: if no two records carry the same email
    before a sequence of requests, none do after it. *)
Theorem serve_all_emails_unique w reqs :
  emails_unique (users w) → emails_unique (users (serve_all w reqs)).
Proof.
  unfold serve_all. revert w. induction reqs as [|req reqs IH]; intros w Hu; [done|].
  cbn [foldl]. apply IH.
  destruct (serve_users w req) as [->|(p & salt & d & uid & Hdb & Hf & ->)]; [done|].
  assert (users w = collection d "user") as Hw by (unfold users; by rewrite Hdb).
  intros e. rewrite filter_app, length_app.
  destruct (decide (e = PyStr.lower (su_email p))) as [->|Hne].
  - rewrite Hw, (unregistered_filter _ _ Hf). cbn [List.length].
    pose proof (length_filter
                  (λ doc : dict, doc !! "email" = Some (VStr (PyStr.lower (su_email p))))
                  [<["_id" := uid]> (user_doc_of p salt)]) as Hl.
    cbn [List.length] in Hl. lia.
  - rewrite (filter_cons_False _ (<["_id" := uid]> (user_doc_of p salt))).
    + rewrite filter_nil. cbn [List.length]. specialize (Hu e). lia.
    + intros He. change (Some (VStr (PyStr.lower (su_email p))) = Some (VStr e)) in He.
      congruence.
Qed.

(** X13. Served one after the other, signups and logins keep the records of the
    [user] collection in the shape [signup] gives them: a trimmed name, a
    lowercase email, a password hash, [is_active] true, role ["user"] and
    an identifier. In particular every record of a store that started
    empty has a ["password_hash"]. *)
Theorem serve_all_signup_shaped w reqs :
  Forall signup_shaped (users w) →
  Forall signup_shaped (users (serve_all w reqs)).
Proof.
  unfold serve_all. revert w. induction reqs as [|req reqs IH]; intros w Hs; [done|].
  cbn [foldl]. apply IH.
  destruct (serve_users w req) as [->|(p & salt & d & uid & _ & _ & ->)]; [done|].
  apply Forall_app. split; [done|].
  apply Forall_cons. split; [apply signup_record_shaped|constructor].
Qed.

End Invariants.

(** ** Properties of the diagnostic route *)

Section DiagnosticFacts.

Context {prim : Primitives} {driver : Driver}.

Lemma substring_0_length n s :
  String.length (String.substring 0 n s) = Nat.min n (String.length s).
Proof.
  revert s. induction n as [|n IH]; intros [|c s]; cbn; [done..|].
  by rewrite IH.
Qed.

Lemma substring_0_prefix n s : ∃ rest, s = String.substring 0 n s ++ rest.
Proof.
  revert s. induction n as [|n IH]; intros [|c s].
  - by exists "".
  - by exists (String c s).
  - by exists "".
  - destruct (IH s) as [rest Hrest]. exists rest.
    change (String c s = String c (String.substring 0 n s ++ rest)).
    by rewrite <- Hrest.
Qed.

(** X14. [/test] always answers, and leaves the world as it was. Its response
    has six keys; ["database_url"] and ["database_name"] tell only whether
    the variables [DATABASE_URL] and [DATABASE_NAME] are set to a non-empty
    string, whatever the database handle is: what was written there from
    the handle is overwritten. *)
Theorem test_database_env_fields w :
  ∃ response,
    test_database w = (Return response, w)
    ∧ dom response
      = {[ "backend"; "database"; "database_url"; "database_name";
           "connection_status"; "collections" ]}
    ∧ response !! "backend" = Some (DStr "✅ Running")
    ∧ response !! "database_url"
      = Some (DStr (if env_set (getenv "DATABASE_URL") then "✅ Set" else "❌ Not Set"))
    ∧ response !! "database_name"
      = Some (DStr (if env_set (getenv "DATABASE_NAME") then "✅ Set" else "❌ Not Set")).
Proof.
  unfold test_database. erewrite run_bind; [|reflexivity].
  eexists. split; [reflexivity|].
  split.
  { destruct (db w) as [d|]; [destruct (list_collection_names d)|];
      rewrite !dom_insert_L, !dom_singleton_L; set_solver. }
  split; [destruct (db w) as [d|]; [destruct (list_collection_names d)|]; done|].
  split; [|apply lookup_insert_eq].
  rewrite lookup_insert_ne by done. apply lookup_insert_eq.
Qed.

(** X15. With a database whose collections can be listed, [/test] reports the
    first ten names at most, in the order of the listing, and reports the
    database as connected and working. *)
Theorem test_database_lists_collections w d collections :
  db w = Some d →
  list_collection_names d = inr collections →
  ∃ response names,
    fst (test_database w) = Return response
    ∧ response !! "collections" = Some (DNames names)
    ∧ names `prefix_of` collections
    ∧ List.length names = Nat.min 10 (List.length collections)
    ∧ response !! "database" = Some (DStr "✅ Connected & Working")
    ∧ response !! "connection_status" = Some (DStr "Connected").
Proof.
  intros Hdb Hlist. unfold test_database. erewrite run_bind; [|reflexivity].
  rewrite Hdb, Hlist. eexists _, (take 10 collections). cbn [fst mret M_ret].
  split; [reflexivity|]. split; [done|]. split; [apply prefix_take|].
  split; [apply length_take|]. by split.
Qed.

(** X16. When the store handle is unset, [/test] reports it as not initialized
    and not connected. When listing the collections raises, [/test]
    catches the exception: it reports the database as connected, with no
    collections, and puts in its status at most the first fifty characters
    of the message. *)
Theorem test_database_degraded w :
  (db w = None →
   ∃ response,
     fst (test_database w) = Return response
     ∧ response !! "database" = Some (DStr "⚠️  Available but not initialized")
     ∧ response !! "connection_status" = Some (DStr "Not Connected")
     ∧ response !! "collections" = Some (DNames []))
  ∧ (∀ d e,
       db w = Some d →
       list_collection_names d = inl e →
       ∃ response shown rest,
         fst (test_database w) = Return response
         ∧ response !! "database"
           = Some (DStr ("⚠️  Connected but Error: " ++ shown))
         ∧ e = shown ++ rest
         ∧ String.length shown = Nat.min 50 (String.length e)
         ∧ response !! "connection_status" = Some (DStr "Connected")
         ∧ response !! "collections" = Some (DNames [])).
Proof.
  split.
  - intros Hdb. unfold test_database. erewrite run_bind; [|reflexivity].
    rewrite Hdb. eexists. cbn [fst mret M_ret]. split; [reflexivity|]. by repeat split.
  - intros d e Hdb Hlist. unfold test_database. erewrite run_bind; [|reflexivity].
    rewrite Hdb, Hlist. destruct (substring_0_prefix 50 e) as [rest Hrest].
    eexists _, (String.substring 0 50 e), rest. cbn [fst mret M_ret].
    split; [reflexivity|]. split; [done|]. split; [done|].
    split; [apply substring_0_length|]. by split.
Qed.

End DiagnosticFacts.

(** ** The further properties at concrete requests *)

Section FurtherWitnesses.

Import Demo.
#[local] Existing Instance demo.
#[local] Existing Instance demo_driver.

Lemma create_access_token_expiry_witness :
  fst (create_access_token 1%positive None claims_world)
    = Return (jwt_encode {[ "exp" := VTime 604800001000; "sub" := VStr "7" ]}
                SECRET_KEY ALGORITHM)
  ∧ fst (create_access_token 1%positive (Some 0) claims_world)
    = Return (jwt_encode {[ "exp" := VTime 604800001000; "sub" := VStr "7" ]}
                SECRET_KEY ALGORITHM)
  ∧ fst (create_access_token 1%positive (Some (-60000000)) claims_world)
    = Return (jwt_encode {[ "exp" := VTime (-59999000); "sub" := VStr "7" ]}
                SECRET_KEY ALGORITHM).
Proof.
  destruct (create_access_token_expiry 1%positive claims_world {[ "sub" := VStr "7" ]})
    as (Hdefault & Hdelta).
  - reflexivity.
  - vm_compute. split; discriminate.
  - destruct Hdefault as (Hnone & Hzero); [vm_compute; split; discriminate|].
    split; [exact Hnone|]. split; [exact Hzero|].
    apply (Hdelta (-60000000)); [discriminate|].
    vm_compute. split; discriminate.
Defined.


Lemma signup_outcome_causes_witness :
  (db unset_world = None ∧ snd (signup ann unset_world) = unset_world)
  ∧ (∃ d, db ann_world = Some d
       ∧ registered d (PyStr.lower "ANN@X.COM")
       ∧ db (snd (signup ann_again ann_world)) = db ann_world)
  ∧ (∃ d uid,
       db empty_world = Some d
       ∧ ¬ registered d (PyStr.lower "Ann@X.com")
       ∧ user ann_response !! "_id" = Some uid
       ∧ users (snd (signup ann empty_world))
         = (collection d "user"
              ++ [<["_id" := uid]> (user_doc_of ann (entropy empty_world))])%list).
Proof.
  split; [|split].
  - apply (proj1 (signup_outcome_causes ann unset_world)). reflexivity.
  - apply (proj1 (proj2 (signup_outcome_causes ann_again ann_world))).
    vm_compute. reflexivity.
  - apply (proj2 (proj2 (signup_outcome_causes ann empty_world)) ann_response).
    vm_compute. reflexivity.
Defined.

Lemma signup_store_frame_witness :
  ∃ d', db (snd (signup ann_again ann_world)) = Some d'
    ∧ (∀ c, c ≠ "user" → collection d' c = collection ann_db c)
    ∧ collection ann_db "user" `prefix_of` collection d' "user"
    ∧ (List.length (collection d' "user") ≤ S (List.length (collection ann_db "user")))%nat.
Proof.
  apply (signup_store_frame ann_again ann_world ann_db).
  vm_compute. reflexivity.
Defined.

Lemma login_public_user_witness :
  ∃ d u,
    db ann_later = Some d
    ∧ find_users d (PyStr.lower "ANN@x.com") = [u]
    ∧ dom (user ann_login_response) = {[ "_id"; "name"; "email"; "is_active"; "role" ]}
    ∧ user ann_login_response !! "password_hash" = None
    ∧ user ann_login_response !! "_id" = Some (VStr (py_str (default VNone (u !! "_id"))))
    ∧ user ann_login_response !! "name" = Some (default VNone (u !! "name"))
    ∧ user ann_login_response !! "email" = Some (VStr (PyStr.lower "ANN@x.com"))
    ∧ user ann_login_response !! "is_active"
      = Some (default (VBool true) (u !! "is_active"))
    ∧ user ann_login_response !! "role" = Some (default (VStr "user") (u !! "role")).
Proof.
  exact (login_public_user ann_login ann_later ann_login_response
           (snd ann_login_run) ann_logs_in).
Defined.

Lemma signup_public_user_witness :
  ∃ record,
    last (users ann_world) = Some record
    ∧ dom (user ann_response) = {[ "_id"; "name"; "email"; "is_active"; "role" ]}
    ∧ dom record = {[ "password_hash" ]} ∪ dom (user ann_response)
    ∧ ∀ k, k ≠ "password_hash" → user ann_response !! k = record !! k.
Proof.
  exact (signup_public_user ann empty_world ann_response ann_world ann_signs_up).
Defined.

Lemma login_ignores_is_active_witness :
  ∃ r claims,
    fst (login ian_login ian_world) = Return r
    ∧ token r = jwt_encode claims SECRET_KEY ALGORITHM
    ∧ user r !! "is_active" = Some (VBool false).
Proof.
  apply (login_ignores_is_active ian_login ian_world ian_db ian_record).
  - reflexivity.
  - vm_compute. reflexivity.
  - vm_compute. reflexivity.
  - vm_compute. reflexivity.
Defined.

Lemma login_reports_signup_user_witness :
  ∃ uid,
    user ann_response !! "_id" = Some uid
    ∧ user ann_login_response = <["_id" := VStr (py_str uid)]> (user ann_response).
Proof.
  apply (login_reports_signup_user ann ann_login empty_world ann_response ann_world
           (heap ann_world) (store_log ann_world) 1001000 "pepper"
           ann_login_response (snd ann_login_run) ann_signs_up).
  - vm_compute. reflexivity.
  - exact ann_logs_in.
Defined.

Lemma login_unaffected_by_other_signup_witness :
  fst (login zed_login (mkWorld (db ann_world) ∅ [] 5000 ""))
    = fst (login zed_login (mkWorld (db empty_world) ∅ [] 5000 "")).
Proof.
  apply (login_unaffected_by_other_signup ann zed_login empty_world ann_response
           ann_world ∅ [] 5000 "" ann_signs_up).
  vm_compute. discriminate.
Defined.

Lemma serve_all_emails_unique_witness :
  emails_unique (users (serve_all empty_world traffic)).
Proof.
  apply (serve_all_emails_unique empty_world traffic).
  intros e. vm_compute. lia.
Defined.

Lemma serve_all_signup_shaped_witness :
  Forall signup_shaped (users (serve_all empty_world traffic)).
Proof.
  apply (serve_all_signup_shaped empty_world traffic).
  vm_compute. constructor.
Defined.

Lemma test_database_lists_collections_witness :
  ∃ response names,
    fst (test_database crowded_world) = Return response
    ∧ response !! "collections" = Some (DNames names)
    ∧ names `prefix_of` (map_to_list (collections crowded_db)).*1
    ∧ List.length names = 10%nat
    ∧ response !! "database" = Some (DStr "✅ Connected & Working")
    ∧ response !! "connection_status" = Some (DStr "Connected").
Proof.
  destruct (test_database_lists_collections crowded_world crowded_db
              (map_to_list (collections crowded_db)).*1)
    as (response & names & Hrun & Hnames & Hprefix & Hlen & Hdb & Hconn).
  - reflexivity.
  - reflexivity.
  - exists response, names. rewrite Hlen. done.
Defined.

Lemma test_database_degraded_witness :
  (∃ response,
     fst (test_database unset_world) = Return response
     ∧ response !! "database" = Some (DStr "⚠️  Available but not initialized")
     ∧ response !! "connection_status" = Some (DStr "Not Connected")
     ∧ response !! "collections" = Some (DNames []))
  ∧ (∃ response shown rest,
       fst (test_database broken_world) = Return response
       ∧ response !! "database"
         = Some (DStr ("⚠️  Connected but Error: " ++ shown))
       ∧ "ServerSelectionTimeoutError: localhost:27017: connection refused"
         = shown ++ rest
       ∧ String.length shown = 50%nat
       ∧ response !! "connection_status" = Some (DStr "Connected")
       ∧ response !! "collections" = Some (DNames [])).
Proof.
  split.
  - apply (proj1 (test_database_degraded unset_world)). reflexivity.
  - apply (proj2 (test_database_degraded broken_world) broken_db
             "ServerSelectionTimeoutError: localhost:27017: connection refused").
    + reflexivity.
    + reflexivity.
Defined.

End FurtherWitnesses.
